(** * e2ecortex client: a shallow embedding of integration/e2ecortex/client.go

    The Go client talks to four roles of a Cortex cluster (distributor,
    querier, ruler, alertmanager).  Its functions are embedded here as
    interaction trees of an inductive free monad [IO]: every exchange with
    the outside world (a round trip of [http.DefaultTransport], a call into
    the Prometheus v1 API client) is a visible event whose answer is chosen
    by the environment, and a Go runtime panic is a leaf of its own.

    Go values are kept as the code has them: a Go [string] and a [[]byte]
    are both byte sequences ([string] of 8-bit [ascii]), [int] and
    [time.Duration] are [Z], an [error] result is [option error] with [None]
    for [nil], [http.Header] is a finite map from canonical keys to value
    lists, and a nil interface or pointer is [None]. *)

From Stdlib Require Import ZArith List Ascii String DecimalString Lia.
From stdpp Require Import base option strings gmap.

Import ListNotations.
Local Open Scope Z_scope.
Local Open Scope string_scope.

(** ** Go basics *)

Module Go.

(** [[]byte] and [string] convert to each other without change. *)
Definition bytes := string.

(** Go's [error] values.  [ErrNotFound] is the package-level sentinel
    declared in client.go; [fmt_Errorf] is an error this package formats;
    [foreign] is an error value made by a library (transport, codec), which
    can never be identical to the sentinel; [url_Error] is the [*url.Error]
    in which [http.Client] wraps every error of an exchange. *)
Inductive error : Type :=
| ErrNotFound
| fmt_Errorf (msg : string)
| foreign (msg : string)
| url_Error (Op URL : string) (Err : error).

(** The message of an error, [err.Error()]. *)
(** [%q] of a text that needs no escaping: the text between double quotes. *)
Definition quote (s : string) : string :=
  String (ascii_of_nat 34) (s +:+ String (ascii_of_nat 34) EmptyString).

Fixpoint Error (e : error) : string :=
  match e with
  | ErrNotFound => "not found"
  | fmt_Errorf msg => msg
  | foreign msg => msg
  | url_Error op url err => op +:+ " " +:+ quote url +:+ ": " +:+ Error err
  end.

(** [%d] of an [int]. *)
Definition itoa (n : Z) : string := NilZero.string_of_int (Z.to_int n).

(** [time.Duration] counts nanoseconds. *)
Definition Duration := Z.
Definition Second : Duration := 1000000000.

(** [time.Time]: the zero value [time.Time{}] or an instant. *)
Inductive Time : Type :=
| Time_zero
| Time_at (unixNano : Z).

(** [context.Context], as the tree of derivations from the root. *)
Inductive Context : Type :=
| Background
| WithCancel (parent : Context)
| WithTimeout (parent : Context) (d : Duration)
| WithDeadline (parent : Context) (unixNano : Z).

(** The timeouts a context carries, innermost first; a deadline given as an
    instant is not a timeout. *)
Fixpoint timeouts (ctx : Context) : list Duration :=
  match ctx with
  | Background => []
  | WithCancel p => timeouts p
  | WithTimeout p d => d :: timeouts p
  | WithDeadline p _ => timeouts p
  end.

(** Whether the context can expire by itself ([ctx.Deadline()] reports one). *)
Fixpoint hasDeadline (ctx : Context) : bool :=
  match ctx with
  | Background => false
  | WithCancel p => hasDeadline p
  | WithTimeout _ _ => true
  | WithDeadline _ _ => true
  end.

End Go.
Export Go.

(** ** net/url escaping *)

Module URL.

Inductive encoding : Type :=
| encodePathSegment
| encodeQueryComponent.

Definition isAlnum (c : ascii) : bool :=
  let n := nat_of_ascii c in
  ((97 <=? n) && (n <=? 122) || (65 <=? n) && (n <=? 90)
   || (48 <=? n) && (n <=? 57))%nat.

Definition mem_ascii (c : ascii) (s : string) : bool :=
  existsb (Ascii.eqb c) (list_ascii_of_string s).

(** [shouldEscape] of net/url for the two modes the client uses. *)
Definition shouldEscape (c : ascii) (mode : encoding) : bool :=
  if isAlnum c then false
  else if mem_ascii c "-_.~" then false
  else if mem_ascii c "$&+,/:;=?@" then
    match mode with
    | encodePathSegment => mem_ascii c "/;,?"
    | encodeQueryComponent => true
    end
  else true.

Definition upperhex (n : nat) : ascii :=
  nth n (list_ascii_of_string "0123456789ABCDEF") "0"%char.

Definition escapeByte (c : ascii) : string :=
  let n := nat_of_ascii c in
  String "%" (String (upperhex (n / 16)) (String (upperhex (n mod 16)) EmptyString)).

Fixpoint escape (s : string) (mode : encoding) : string :=
  match s with
  | EmptyString => EmptyString
  | String c rest =>
      if shouldEscape c mode then
        match mode, Ascii.eqb c " " with
        | encodeQueryComponent, true => String "+" (escape rest mode)
        | _, _ => escapeByte c +:+ escape rest mode
        end
      else String c (escape rest mode)
  end.

(** [url.PathEscape] and [url.QueryEscape]. *)
Definition PathEscape (s : string) : string := escape s encodePathSegment.
Definition QueryEscape (s : string) : string := escape s encodeQueryComponent.

Definition unhex (c : ascii) : option nat :=
  let n := nat_of_ascii c in
  if ((48 <=? n) && (n <=? 57))%nat then Some (n - 48)%nat
  else if ((97 <=? n) && (n <=? 102))%nat then Some (n - 97 + 10)%nat
  else if ((65 <=? n) && (n <=? 70))%nat then Some (n - 65 + 10)%nat
  else None.

(** [url.PathUnescape]: every [%XX] becomes its byte, a stray [%] is an
    error, every other byte stands for itself. *)
Fixpoint PathUnescape (s : string) : option string :=
  match s with
  | EmptyString => Some EmptyString
  | String c rest =>
      if Ascii.eqb c "%" then
        match rest with
        | String h (String l rest') =>
            match unhex h, unhex l, PathUnescape rest' with
            | Some a, Some b, Some r =>
                Some (String (ascii_of_nat (a * 16 + b)) r)
            | _, _, _ => None
            end
        | _ => None
        end
      else
        match PathUnescape rest with
        | Some r => Some (String c r)
        | None => None
        end
  end.

(** A byte of an escaped segment is [%] or one that needs no escaping. *)
Definition segmentByte (c : ascii) : bool :=
  Ascii.eqb c "%" || negb (shouldEscape c encodePathSegment).



End URL.

(** ** net/http values *)

Module HTTP.

Definition isLower (c : ascii) : bool :=
  let n := nat_of_ascii c in ((97 <=? n) && (n <=? 122))%nat.
Definition isUpper (c : ascii) : bool :=
  let n := nat_of_ascii c in ((65 <=? n) && (n <=? 90))%nat.
Definition toUpper (c : ascii) : ascii := ascii_of_nat (nat_of_ascii c - 32).
Definition toLower (c : ascii) : ascii := ascii_of_nat (nat_of_ascii c + 32).

Definition validHeaderFieldByte (c : ascii) : bool :=
  URL.isAlnum c || URL.mem_ascii c "!#$%&'*+-.^_`|~".

Fixpoint canonicalize (upper : bool) (s : string) : string :=
  match s with
  | EmptyString => EmptyString
  | String c rest =>
      let c' := if upper && isLower c then toUpper c
                else if negb upper && isUpper c then toLower c
                else c in
      String c' (canonicalize (Ascii.eqb c' "-") rest)
  end.

(** [textproto.CanonicalMIMEHeaderKey]: a key with a byte that no header
    field name may hold is left as it is. *)
Definition CanonicalMIMEHeaderKey (s : string) : string :=
  if forallb validHeaderFieldByte (list_ascii_of_string s)
  then canonicalize true s else s.

(** [http.Header] is [map[string][]string]. *)
Abbreviation http_Header := (gmap string (list string)).

Definition Header_Values (h : http_Header) (key : string) : list string :=
  default [] (h !! CanonicalMIMEHeaderKey key).

Definition Header_Get (h : http_Header) (key : string) : string :=
  hd "" (Header_Values h key).

Definition Header_Set (h : http_Header) (key value : string) : http_Header :=
  <[CanonicalMIMEHeaderKey key := [value]]> h.

Definition Header_Add (h : http_Header) (key value : string) : http_Header :=
  <[CanonicalMIMEHeaderKey key := (Header_Values h key ++ [value])%list]> h.

(** [*http.Request]: the fields the client and its transports touch.  [URL]
    is the textual form that [http.NewRequest] parsed; [Body] is [None] for
    a nil body. *)
Record Request : Type := mkRequest {
  Method : string;
  URL : string;
  Header : http_Header;
  Body : option bytes;
  ctx : Context
}.

Definition Request_withHeader (req : Request) (h : http_Header) : Request :=
  {| Method := Method req; URL := URL req; Header := h;
     Body := Body req; ctx := ctx req |}.

(** [req.WithContext(ctx)]. *)
Definition WithContext (req : Request) (c : Context) : Request :=
  {| Method := Method req; URL := URL req; Header := Header req;
     Body := Body req; ctx := c |}.

(** A response body stream: what is still to be read, the error the stream
    ends with (if any), whether [Close] was called, and whether it is
    [http.NoBody], which the transport hands out for a response without a
    body. *)
Record ReadCloser : Type := mkBody {
  content : bytes;
  fault : option error;
  closed : bool;
  noBody : bool
}.

Definition errReadOnClosedResBody : error :=
  foreign "http: read on closed response body".

(** [Body.Close()]. *)
Definition Close (b : ReadCloser) : ReadCloser :=
  {| content := content b; fault := fault b; closed := true;
     noBody := noBody b |}.

(** [ioutil.ReadAll]: the bytes read, the error, and the stream afterwards
    (drained).  A closed body of the transport refuses to be read;
    [http.NoBody] does not care whether it was closed. *)
Definition ReadAll (b : ReadCloser) : bytes * option error * ReadCloser :=
  if closed b && negb (noBody b) then ("", Some errReadOnClosedResBody, b)
  else (content b, fault b,
        {| content := ""; fault := fault b; closed := closed b;
           noBody := noBody b |}).

(** [*http.Response]. *)
Record Response : Type := mkResponse {
  StatusCode : Z;
  RespHeader : http_Header;
  RespBody : ReadCloser
}.

Definition Response_withBody (res : Response) (b : ReadCloser) : Response :=
  {| StatusCode := StatusCode res; RespHeader := RespHeader res;
     RespBody := b |}.

(** [strings.ToLower] on the ASCII letters. *)
Fixpoint lowerASCII (s : string) : string :=
  match s with
  | EmptyString => EmptyString
  | String c rest =>
      String (if isUpper c then toLower c else c) (lowerASCII rest)
  end.

(** [urlErrorOp] of net/http: the method as [url.Error] names it. *)
Definition urlErrorOp (method : string) : string :=
  match method with
  | EmptyString => "Get"
  | String c rest => String c (lowerASCII rest)
  end.

(** [redirectBehavior] of net/http: the method of the next hop, whether the
    response is to be followed, and whether the body is sent again.  The
    requests of this model can always send their body again ([GetBody] is
    set by [http.NewRequest] for a [bytes.Reader]). *)
Definition redirectBehavior (reqMethod : string) (resp : Response) :
    string * bool * bool :=
  if decide (StatusCode resp = 301 \/ StatusCode resp = 302
             \/ StatusCode resp = 303) then
    (if decide (reqMethod <> "GET" /\ reqMethod <> "HEAD") then "GET"
     else reqMethod, true, false)
  else if decide (StatusCode resp = 307 \/ StatusCode resp = 308) then
    if decide (Header_Get (RespHeader resp) "Location" = "")
    then (reqMethod, false, true)
    else (reqMethod, true, true)
  else ("", false, false).

Definition StatusOK : Z := 200.
Definition StatusCreated : Z := 201.
Definition StatusNotFound : Z := 404.

End HTTP.
Export HTTP.

(** ** Packages the client imports

    The vendored packages are not part of the repository: their types and
    functions are taken as parameters.  [proto.Marshal], [yaml.Marshal],
    [json.Unmarshal] and [yaml.Unmarshal] appear once per Go type they are
    used at. *)

Inductive Result (A : Type) : Type :=
| Ok (a : A)
| Err (err : error).
Arguments Ok {A} a.
Arguments Err {A} err.

(** [ServerStatus] of client.go. *)
Record ServerStatus_Data : Type := { ConfigYaml : string }.
Record ServerStatus : Type := { Data : ServerStatus_Data }.

(** [userConfig] of client.go. *)
Record userConfig : Type := {
  TemplateFiles : gmap string string;
  AlertmanagerConfig : string
}.

(** [prompb.WriteRequest], over the vendored series type. *)
Record prompb_WriteRequest (TimeSeries : Type) : Type := {
  Timeseries : list TimeSeries
}.
Arguments Timeseries {TimeSeries} _.

Class Packages : Type := {
  (** [prompb.TimeSeries], [rulefmt.RuleGroup], [alertConfig.Config],
      [model.Value] *)
  prompb_TimeSeries : Type;
  rulefmt_RuleGroup : Type;
  alertConfig_Config : Type;
  model_Value : Type;
  (** [alertConfig.Config{}] *)
  Config_zero : alertConfig_Config;
  (** [url.Parse]: the error, if the text is refused *)
  url_Parse : string -> option error;
  (** [u.Parse(ref).String()]: the reference [ref] resolved against the URL
      [u], both as text *)
  url_ResolveReference : string -> string -> Result string;
  (** the URL parsed from an address, with the trailing slashes of its path
      trimmed and [ep] joined to that path by [path.Join], as text: what
      [URL(ep, nil).String()] is for a [promapi.Client] of that address *)
  url_JoinPath : string -> string -> string;
  (** [stripPassword] of net/http: the URL without the password of its
      user information *)
  http_stripPassword : string -> string;
  (** [refererForURL] of net/http: the Referer for a hop from the first URL
      to the second; empty when none is to be sent *)
  http_refererForURL : string -> string -> string;
  (** whether net/http copies the headers that carry credentials on a hop
      from the first URL to the second (same domain or a subdomain) *)
  http_sameDomain : string -> string -> bool;
  (** [proto.Marshal] of a [*prompb.WriteRequest] *)
  proto_Marshal : prompb_WriteRequest prompb_TimeSeries -> Result bytes;
  (** [snappy.Encode(nil, data)] *)
  snappy_Encode : bytes -> bytes;
  yaml_Marshal_RuleGroup : rulefmt_RuleGroup -> Result bytes;
  yaml_Marshal_userConfig : userConfig -> Result bytes;
  (** [yaml.Unmarshal] into a map of rule groups: the map as it is left,
      and the error *)
  yaml_Unmarshal_RuleGroups :
    bytes -> gmap string (list rulefmt_RuleGroup) ->
    gmap string (list rulefmt_RuleGroup) * option error;
  (** [json.Unmarshal(body, &ss)] with [ss *ServerStatus]: the pointer is
      left nil ([None]) by a JSON null *)
  json_Unmarshal_ServerStatus : bytes -> Result (option ServerStatus);
  (** [yaml.Unmarshal] into an [alertConfig.Config]: the config as it is
      left, and the error *)
  yaml_Unmarshal_Config :
    bytes -> alertConfig_Config -> alertConfig_Config * option error
}.

(** ** Transports and the events of the outside world *)

Module Transport.

(** [http.DefaultTransport]. *)
Inductive Default : Type := DefaultTransport.

(** [addOrgIDRoundTripper] of client.go. *)
Record addOrgIDRoundTripper (N : Type) : Type := {
  orgID : string;
  next : N
}.
Arguments orgID {N} _.
Arguments next {N} _.

End Transport.
Export Transport (DefaultTransport, addOrgIDRoundTripper).

(** [http.Client]; the zero value [http.Client{}] sends through
    [http.DefaultTransport]. *)
Record http_Client (T : Type) : Type := { Transport : T }.
Arguments Transport {T} _.

(** The [promapi.Client] that [promapi.NewClient] builds: its endpoint, kept
    as the address it was parsed from (the parsed form, with the trailing
    slashes of its path trimmed, is taken where it is used, in
    [promapi_URL]), and an [http.Client] over the configured round
    tripper. *)
Record promapi_Client : Type := {
  endpoint : string;
  client : http_Client (addOrgIDRoundTripper Transport.Default)
}.

(** [promv1.API], as built by [promv1.NewAPI]. *)
Record promv1_API : Type := { api_client : promapi_Client }.

Section WithPackages.
Context `{pkgs : Packages}.

(** What leaves the process: a request sent by [http.DefaultTransport], or a
    call of the Prometheus v1 API client with the context it is given. *)
Inductive Event : Type :=
| NetRoundTrip (req : Request)
| API_Query (api : promv1_API) (c : Context) (query : string) (ts : Time)
| API_LabelValues (api : promv1_API) (c : Context) (label : string)
    (startTime endTime : Time)
| API_LabelNames (api : promv1_API) (c : Context) (startTime endTime : Time).

(** What comes back: a response or a transport error; the three results of
    the API methods (value, warnings, error). *)
Definition Answer (e : Event) : Type :=
  match e with
  | NetRoundTrip _ => Result Response
  | API_Query _ _ _ _ => option model_Value * list string * option error
  | API_LabelValues _ _ _ _ _ => list string * list string * option error
  | API_LabelNames _ _ _ _ => list string * list string * option error
  end.

Inductive IO (A : Type) : Type :=
| Ret (a : A)
| Panic (msg : string)
| Vis (e : Event) (k : Answer e -> IO A).
Arguments Ret {A} a.
Arguments Panic {A} msg.
Arguments Vis {A} e k.

Fixpoint bind {A B : Type} (m : IO A) (f : A -> IO B) : IO B :=
  match m with
  | Ret a => f a
  | Panic msg => Panic msg
  | Vis e k => Vis e (fun x => bind (k x) f)
  end.

#[export] Instance IO_ret : MRet IO := fun A a => Ret a.
#[export] Instance IO_bind : MBind IO := fun A B f m => bind m f.

Definition trigger (e : Event) : IO (Answer e) := Vis e Ret.

(** The panic of a method call or field access through nil. *)
Definition nilDereference : string :=
  "runtime error: invalid memory address or nil pointer dereference".

(** *** Running a tree against an environment *)

Definition Env : Type := forall e : Event, Answer e.

Inductive Outcome (A : Type) : Type :=
| Returned (a : A)
| Panicked (msg : string).
Arguments Returned {A} a.
Arguments Panicked {A} msg.

Fixpoint run {A : Type} (env : Env) (p : IO A) : Outcome A :=
  match p with
  | Ret a => Returned a
  | Panic msg => Panicked msg
  | Vis e k => run env (k (env e))
  end.

(** The events of a run, in order. *)
Fixpoint trace {A : Type} (env : Env) (p : IO A) : list Event :=
  match p with
  | Ret _ => []
  | Panic _ => []
  | Vis e k => e :: trace env (k (env e))
  end.

(** The context an event carries. *)
Definition contextOf (e : Event) : Context :=
  match e with
  | NetRoundTrip req => ctx req
  | API_Query _ c _ _ => c
  | API_LabelValues _ c _ _ _ => c
  | API_LabelNames _ c _ _ => c
  end.

(** Every event of the run carries the context [cx]. *)
Definition allUnder (cx : Context) (events : list Event) : Prop :=
  Forall (fun e => contextOf e = cx) events.

(** The event is scoped to [tenant]: a request names it, alone, in
    [X-Scope-OrgID]; an API call goes through a client whose round tripper
    is configured with it. *)
Definition tenantScoped (tenant : string) (e : Event) : Prop :=
  match e with
  | NetRoundTrip req => Header_Values (Header req) "X-Scope-OrgID" = [tenant]
  | API_Query api _ _ _ =>
      Transport.orgID (Transport (client (api_client api))) = tenant
  | API_LabelValues api _ _ _ _ =>
      Transport.orgID (Transport (client (api_client api))) = tenant
  | API_LabelNames api _ _ _ =>
      Transport.orgID (Transport (client (api_client api))) = tenant
  end.

(** *** The RoundTripper interface *)

Class RoundTripper (T : Type) : Type :=
  RoundTrip : T -> Request -> IO (Result Response).

#[export] Instance Default_RoundTripper : RoundTripper Transport.Default :=
  fun _ req => trigger (NetRoundTrip req).

(** [addOrgIDRoundTripper.RoundTrip]: the header is set on the request
    itself, which is then handed to [next]. *)
#[export] Instance addOrgID_RoundTripper (N : Type) `{RoundTripper N} :
  RoundTripper (addOrgIDRoundTripper N) :=
  fun r req =>
    let req := Request_withHeader req
                 (Header_Set (Header req) "X-Scope-OrgID" (Transport.orgID r)) in
    RoundTrip (Transport.next r) req.

(** [shouldCopyHeaderOnRedirect] of net/http. *)
Definition shouldCopyHeaderOnRedirect (headerKey prev next : string) : bool :=
  let k := CanonicalMIMEHeaderKey headerKey in
  if decide (k = "Authorization" \/ k = "Www-Authenticate" \/ k = "Cookie"
             \/ k = "Cookie2")
  then http_sameDomain prev next
  else true.

(** The header of the next hop: the entries of the first request that may
    be copied, and the Referer when there is one. *)
Definition redirectHeader (first : http_Header) (prev next : string) :
    http_Header :=
  let copied :=
    filter (fun kv => shouldCopyHeaderOnRedirect kv.1 prev next = true) first in
  let ref := http_refererForURL prev next in
  if decide (ref = "") then copied else Header_Set copied "Referer" ref.

(** The [*url.Error] of an exchange that began with [ireq]. *)
Definition uerr (ireq : Request) (url : string) (err : error) : error :=
  url_Error (urlErrorOp (Method ireq)) (http_stripPassword url) err.

(** The loop of [http.Client.do] with the default redirect policy, after
    [sent] requests: [req] is sent; an error of the transport is wrapped; a
    response that is no redirect is handed back; a redirect without a
    Location, or with one that does not resolve, is an error; otherwise the
    next hop is built from the first request [ireq], and sent unless ten
    requests were sent already.  ([hops] counts the requests that may still
    follow; a 301, 302 or 303 without Location is an error in the Go
    releases the client was written for.) *)
Fixpoint do_hops {T : Type} `{RoundTripper T} (hops : nat) (tr : T)
    (ireq req : Request) : IO (Result Response) :=
  r ← RoundTrip tr req;
  match r with
  | Err err => mret (Err (uerr ireq (URL req) err))
  | Ok resp =>
      let '(redirectMethod, shouldRedirect, includeBody) :=
        redirectBehavior (Method req) resp in
      if shouldRedirect then
        let loc := Header_Get (RespHeader resp) "Location" in
        if decide (loc = "") then
          mret (Err (uerr ireq (URL req)
                       (foreign (itoa (StatusCode resp)
                                 +:+ " response missing Location header"))))
        else
          match url_ResolveReference (URL req) loc with
          | Err err =>
              mret (Err (uerr ireq (URL req)
                           (foreign ("failed to parse Location header "
                                     +:+ quote loc +:+ ": " +:+ Error err))))
          | Ok u =>
              let next :=
                {| Method := redirectMethod;
                   URL := u;
                   Header := redirectHeader (Header ireq) (URL req) u;
                   Body := if includeBody then Body ireq else None;
                   ctx := ctx ireq |} in
              match hops with
              | O =>
                  mret (Err (url_Error (urlErrorOp (Method ireq)) loc
                               (foreign "stopped after 10 redirects")))
              | S hops' => do_hops hops' tr ireq next
              end
          end
      else mret (Ok resp)
  end.

(** [http.Client.Do] of a client without [CheckRedirect], [Jar] and
    [Timeout]: at most ten requests.  (When the redirect policy stops the
    exchange, [Do] also hands back the last response, closed, beside the
    error; no caller here looks at a response that comes with an error.) *)
Definition http_Client_Do {T : Type} `{RoundTripper T}
    (cl : http_Client T) (req : Request) : IO (Result Response) :=
  do_hops 9 (Transport cl) req req.

(** [http.NewRequestWithContext] and [http.NewRequest]: the URL must parse;
    the methods the client uses are all valid. *)
Definition http_NewRequestWithContext (c : Context) (method url : string)
    (body : option bytes) : Result Request :=
  match url_Parse url with
  | Some err => Err err
  | None => Ok {| Method := method; URL := url; Header := ∅;
                  Body := body; ctx := c |}
  end.

Definition http_NewRequest (method url : string) (body : option bytes) :
    Result Request :=
  http_NewRequestWithContext Background method url body.

(** *** promapi.Client *)

(** [promapi.NewClient]: the address must parse; the client's own
    [http.Client] is built over the round tripper of the configuration. *)
Definition promapi_NewClient (Address : string)
    (rt : addOrgIDRoundTripper Transport.Default) : Result promapi_Client :=
  match url_Parse Address with
  | Some err => Err err
  | None => Ok {| endpoint := Address; client := {| Transport := rt |} |}
  end.

(** [URL(ep, nil).String()]: the endpoint with [ep] joined to its path. *)
Definition promapi_URL (c : promapi_Client) (ep : string) : string :=
  url_JoinPath (endpoint c) ep.

(** [Do(ctx, req)]: sends the request under [ctx], reads the whole body and
    closes it.  A failed read comes back with the response and the error. *)
Definition promapi_Do (c : promapi_Client) (cx : Context) (req : Request) :
    IO (option Response * bytes * option error) :=
  r ← http_Client_Do (client c) (WithContext req cx);
  match r with
  | Err err => mret (None, "", Some err)
  | Ok resp =>
      let '(body, err, b) := ReadAll (RespBody resp) in
      mret (Some (Response_withBody resp (Close b)), body, err)
  end.

Definition promv1_NewAPI (c : promapi_Client) : promv1_API :=
  {| api_client := c |}.

End WithPackages.

Arguments Ret {_ A} a.
Arguments Panic {_ A} msg.
Arguments Vis {_ A} e k.
Arguments Returned {A} a.
Arguments Panicked {A} msg.

(** ** The client *)

(** [Client] of client.go; [alertmanagerClient] is a nil interface when no
    alertmanager address was given.  The fields are unexported and
    [NewClient] always sets [httpClient] and [querierClient]: a [Client]
    here is one with both set, and the zero value [Client{}] is not
    covered. *)
Record Client : Type := {
  alertmanagerClient : option promapi_Client;
  querierAddress : string;
  rulerAddress : string;
  distributorAddress : string;
  timeout : Duration;
  httpClient : http_Client Transport.Default;
  querierClient : promv1_API;
  orgID : string
}.

Section ClientOperations.
Context `{pkgs : Packages}.

(** [c.alertmanagerClient = alertmanagerAPIClient] *)
Definition setAlertmanagerClient (c : Client) (am : promapi_Client) : Client :=
  {| alertmanagerClient := Some am;
     querierAddress := querierAddress c;
     rulerAddress := rulerAddress c;
     distributorAddress := distributorAddress c;
     timeout := timeout c;
     httpClient := httpClient c;
     querierClient := querierClient c;
     orgID := orgID c |}.

(** [NewClient] *)
Definition NewClient (distributorAddress querierAddress alertmanagerAddress
    rulerAddress orgID : string) : Result Client :=
  match promapi_NewClient ("http://" +:+ querierAddress +:+ "/api/prom")
          {| Transport.orgID := orgID; Transport.next := DefaultTransport |} with
  | Err err => Err err
  | Ok querierAPIClient =>
      let c := {| alertmanagerClient := None;
                  querierAddress := querierAddress;
                  rulerAddress := rulerAddress;
                  distributorAddress := distributorAddress;
                  timeout := 5 * Second;
                  httpClient := {| Transport := DefaultTransport |};
                  querierClient := promv1_NewAPI querierAPIClient;
                  orgID := orgID |} in
      if decide (alertmanagerAddress ≠ "") then
        match promapi_NewClient ("http://" +:+ alertmanagerAddress)
                {| Transport.orgID := orgID;
                   Transport.next := DefaultTransport |} with
        | Err err => Err err
        | Ok alertmanagerAPIClient =>
            Ok (setAlertmanagerClient c alertmanagerAPIClient)
        end
      else Ok c
  end.

(** [Push]: the response is handed back after the deferred [Body.Close]
    (and the deferred [cancel] of the request context). *)
Definition Push (c : Client) (timeseries : list prompb_TimeSeries) :
    IO (option Response * option error) :=
  match proto_Marshal {| Timeseries := timeseries |} with
  | Err err => mret (None, Some err)
  | Ok data =>
      let compressed := snappy_Encode data in
      match http_NewRequest "POST"
              ("http://" +:+ distributorAddress c +:+ "/api/prom/push")
              (Some compressed) with
      | Err err => mret (None, Some err)
      | Ok req =>
          let req := Request_withHeader req
                       (Header_Add (Header req) "Content-Encoding" "snappy") in
          let req := Request_withHeader req
                       (Header_Set (Header req) "Content-Type"
                          "application/x-protobuf") in
          let req := Request_withHeader req
                       (Header_Set (Header req)
                          "X-Prometheus-Remote-Write-Version" "0.1.0") in
          let req := Request_withHeader req
                       (Header_Set (Header req) "X-Scope-OrgID" (orgID c)) in
          let cx := WithTimeout Background (timeout c) in
          r ← http_Client_Do (httpClient c) (WithContext req cx);
          match r with
          | Err err => mret (None, Some err)
          | Ok res =>
              mret (Some (Response_withBody res (Close (RespBody res))), None)
          end
      end
  end.

(** [Query] *)
Definition Query (c : Client) (query : string) (ts : Time) :
    IO (option model_Value * option error) :=
  '(value, _, err) ← trigger (API_Query (querierClient c) Background query ts);
  mret (value, err).

(** [QueryRaw] *)
Definition QueryRaw (c : Client) (query : string) :
    IO (option Response * bytes * option error) :=
  let addr := "http://" +:+ querierAddress c
              +:+ "/api/prom/api/v1/query?query=" +:+ URL.QueryEscape query in
  let cx := WithTimeout Background (timeout c) in
  match http_NewRequestWithContext cx "GET" addr None with
  | Err err => mret (None, "", Some err)
  | Ok req =>
      let req := Request_withHeader req
                   (Header_Set (Header req) "X-Scope-OrgID" (orgID c)) in
      r ← http_Client_Do (httpClient c) req;
      match r with
      | Err err => mret (None, "", Some err)
      | Ok res =>
          let '(body, err, b) := ReadAll (RespBody res) in
          match err with
          | Some err => mret (None, "", Some err)
          | None => mret (Some (Response_withBody res (Close b)), body, None)
          end
      end
  end.

(** [LabelValues] *)
Definition LabelValues (c : Client) (label : string) :
    IO (list string * option error) :=
  '(value, _, err) ←
    trigger (API_LabelValues (querierClient c) Background label
               Time_zero Time_zero);
  mret (value, err).

(** [LabelNames] *)
Definition LabelNames (c : Client) : IO (list string * option error) :=
  '(value, _, err) ←
    trigger (API_LabelNames (querierClient c) Background Time_zero Time_zero);
  mret (value, err).

(** [GetAlertmanagerConfig] *)
Definition GetAlertmanagerConfig (c : Client) (cx : Context) :
    IO (option alertConfig_Config * option error) :=
  match alertmanagerClient c with
  | None => Panic nilDereference
  | Some am =>
      let u := promapi_URL am "/api/prom/api/v1/status" in
      match http_NewRequest "GET" u None with
      | Err err =>
          mret (None, Some (fmt_Errorf ("error creating request: " +:+ Error err)))
      | Ok req =>
          '(resp, body, err) ← promapi_Do am cx req;
          match err with
          | Some err => mret (None, Some err)
          | None =>
              match resp with
              | None => Panic nilDereference
              | Some resp =>
                  if decide (StatusCode resp = StatusNotFound)
                  then mret (None, Some ErrNotFound)
                  else
                    match json_Unmarshal_ServerStatus body with
                    | Err err => mret (None, Some err)
                    | Ok None => Panic nilDereference
                    | Ok (Some ss) =>
                        let '(cfg, err) :=
                          yaml_Unmarshal_Config (ConfigYaml (Data ss))
                            Config_zero in
                        mret (Some cfg, err)
                    end
              end
          end
      end
  end.

(** [GetRuleGroups] *)
Definition GetRuleGroups (c : Client) :
    IO (option (gmap string (list rulefmt_RuleGroup)) * option error) :=
  match http_NewRequest "GET"
          ("http://" +:+ rulerAddress c +:+ "/api/prom/rules") None with
  | Err err => mret (None, Some err)
  | Ok req =>
      let req := Request_withHeader req
                   (Header_Set (Header req) "X-Scope-OrgID" (orgID c)) in
      let cx := WithTimeout Background (timeout c) in
      r ← http_Client_Do (httpClient c) (WithContext req cx);
      match r with
      | Err err => mret (None, Some err)
      | Ok res =>
          let '(data, err, _) := ReadAll (RespBody res) in
          match err with
          | Some err => mret (None, Some err)
          | None =>
              let '(rgs, err) := yaml_Unmarshal_RuleGroups data ∅ in
              match err with
              | Some err => mret (None, Some err)
              | None => mret (Some rgs, None)
              end
          end
      end
  end.

(** [SetRuleGroup] *)
Definition SetRuleGroup (c : Client) (rulegroup : rulefmt_RuleGroup)
    (namespace : string) : IO (option error) :=
  match yaml_Marshal_RuleGroup rulegroup with
  | Err err => mret (Some err)
  | Ok data =>
      match http_NewRequest "POST"
              ("http://" +:+ rulerAddress c +:+ "/api/prom/rules/"
               +:+ URL.PathEscape namespace) (Some data) with
      | Err err => mret (Some err)
      | Ok req =>
          let req := Request_withHeader req
                       (Header_Set (Header req) "Content-Type"
                          "application/yaml") in
          let req := Request_withHeader req
                       (Header_Set (Header req) "X-Scope-OrgID" (orgID c)) in
          let cx := WithTimeout Background (timeout c) in
          r ← http_Client_Do (httpClient c) (WithContext req cx);
          match r with
          | Err err => mret (Some err)
          | Ok res => (* the deferred [res.Body.Close()] leaves no trace *)
              mret None
          end
      end
  end.

(** [DeleteRuleGroup] *)
Definition DeleteRuleGroup (c : Client) (namespace groupName : string) :
    IO (option error) :=
  match http_NewRequest "DELETE"
          ("http://" +:+ rulerAddress c +:+ "/api/prom/rules/"
           +:+ URL.PathEscape namespace +:+ "/"
           +:+ URL.PathEscape groupName) None with
  | Err err => mret (Some err)
  | Ok req =>
      let req := Request_withHeader req
                   (Header_Set (Header req) "Content-Type"
                      "application/yaml") in
      let req := Request_withHeader req
                   (Header_Set (Header req) "X-Scope-OrgID" (orgID c)) in
      let cx := WithTimeout Background (timeout c) in
      r ← http_Client_Do (httpClient c) (WithContext req cx);
      match r with
      | Err err => mret (Some err)
      | Ok res => mret None
      end
  end.

(** The error of an unexpected status, as [fmt.Errorf] formats it. *)
Definition statusError (what : string) (status : Z) (body : bytes) : error :=
  fmt_Errorf (what +:+ " config failed with status " +:+ itoa status
              +:+ " and error " +:+ body).

(** [SetAlertmanagerConfig] *)
Definition SetAlertmanagerConfig (c : Client) (cx : Context)
    (amConfig : string) (templates : gmap string string) :
    IO (option error) :=
  match alertmanagerClient c with
  | None => Panic nilDereference
  | Some am =>
      let u := promapi_URL am "/api/v1/alerts" in
      match yaml_Marshal_userConfig
              {| AlertmanagerConfig := amConfig;
                 TemplateFiles := templates |} with
      | Err err => mret (Some err)
      | Ok data =>
          match http_NewRequest "POST" u (Some data) with
          | Err err =>
              mret (Some (fmt_Errorf
                            ("error creating request: " +:+ Error err)))
          | Ok req =>
              '(resp, body, err) ← promapi_Do am cx req;
              match err with
              | Some err => mret (Some err)
              | None =>
                  match resp with
                  | None => Panic nilDereference
                  | Some resp =>
                      if decide (StatusCode resp = StatusNotFound)
                      then mret (Some ErrNotFound)
                      else if decide (StatusCode resp ≠ StatusCreated)
                      then mret (Some (statusError "setting"
                                         (StatusCode resp) body))
                      else mret None
                  end
              end
          end
      end
  end.

(** [DeleteAlertmanagerConfig] *)
Definition DeleteAlertmanagerConfig (c : Client) (cx : Context) :
    IO (option error) :=
  match alertmanagerClient c with
  | None => Panic nilDereference
  | Some am =>
      let u := promapi_URL am "/api/v1/alerts" in
      match http_NewRequest "DELETE" u None with
      | Err err =>
          mret (Some (fmt_Errorf ("error creating request: " +:+ Error err)))
      | Ok req =>
          '(resp, body, err) ← promapi_Do am cx req;
          match err with
          | Some err => mret (Some err)
          | None =>
              match resp with
              | None => Panic nilDereference
              | Some resp =>
                  if decide (StatusCode resp = StatusNotFound)
                  then mret (Some ErrNotFound)
                  else if decide (StatusCode resp ≠ StatusOK)
                  then mret (Some (statusError "deleting"
                                     (StatusCode resp) body))
                  else mret None
              end
          end
      end
  end.

(** *** The requests the operations hand to their HTTP client *)

Definition pushRequest (c : Client) (data : bytes) : Request :=
  {| Method := "POST";
     URL := "http://" +:+ distributorAddress c +:+ "/api/prom/push";
     Header := <["X-Scope-Orgid" := [orgID c]]>
                 (<["X-Prometheus-Remote-Write-Version" := ["0.1.0"]]>
                    (<["Content-Type" := ["application/x-protobuf"]]>
                       (<["Content-Encoding" := ["snappy"]]> ∅)));
     Body := Some (snappy_Encode data);
     ctx := WithTimeout Background (timeout c) |}.

Definition queryRawRequest (c : Client) (query : string) : Request :=
  {| Method := "GET";
     URL := "http://" +:+ querierAddress c
            +:+ "/api/prom/api/v1/query?query=" +:+ URL.QueryEscape query;
     Header := <["X-Scope-Orgid" := [orgID c]]> ∅;
     Body := None;
     ctx := WithTimeout Background (timeout c) |}.

Definition getRuleGroupsRequest (c : Client) : Request :=
  {| Method := "GET";
     URL := "http://" +:+ rulerAddress c +:+ "/api/prom/rules";
     Header := <["X-Scope-Orgid" := [orgID c]]> ∅;
     Body := None;
     ctx := WithTimeout Background (timeout c) |}.

Definition setRuleGroupRequest (c : Client) (data : bytes)
    (namespace : string) : Request :=
  {| Method := "POST";
     URL := "http://" +:+ rulerAddress c +:+ "/api/prom/rules/"
            +:+ URL.PathEscape namespace;
     Header := <["X-Scope-Orgid" := [orgID c]]>
                 (<["Content-Type" := ["application/yaml"]]> ∅);
     Body := Some data;
     ctx := WithTimeout Background (timeout c) |}.

Definition deleteRuleGroupRequest (c : Client) (namespace groupName : string) :
    Request :=
  {| Method := "DELETE";
     URL := "http://" +:+ rulerAddress c +:+ "/api/prom/rules/"
            +:+ URL.PathEscape namespace +:+ "/"
            +:+ URL.PathEscape groupName;
     Header := <["X-Scope-Orgid" := [orgID c]]>
                 (<["Content-Type" := ["application/yaml"]]> ∅);
     Body := None;
     ctx := WithTimeout Background (timeout c) |}.

(** The request an alertmanager operation hands to [Do] of the alertmanager
    client [am], under the caller's context [cx]. *)
Definition alertmanagerRequest (am : promapi_Client) (cx : Context)
    (method ep : string) (body : option bytes) : Request :=
  {| Method := method;
     URL := promapi_URL am ep;
     Header := ∅;
     Body := body;
     ctx := cx |}.

(** *** Outcomes named by the specification *)

(** What [GetAlertmanagerConfig] makes of a body once the status is not
    404: the status plays no part. *)
Definition decodeStatusBody (body : bytes) :
    Outcome (option alertConfig_Config * option error) :=
  match json_Unmarshal_ServerStatus body with
  | Err err => Returned (None, Some err)
  | Ok None => Panicked nilDereference
  | Ok (Some ss) =>
      Returned (Some (fst (yaml_Unmarshal_Config (ConfigYaml (Data ss))
                             Config_zero)),
                snd (yaml_Unmarshal_Config (ConfigYaml (Data ss)) Config_zero))
  end.

(** The outcome of a write by the status of its response and the body read
    from it. *)
Definition byStatus (expected : Z) (what : string) (status : Z)
    (body : bytes) : Outcome (option error) :=
  if decide (status = expected) then Returned None
  else if decide (status = StatusNotFound)
       then Returned (Some ErrNotFound)
       else Returned
              (Some (fmt_Errorf
                       (what +:+ " config failed with status "
                        +:+ itoa status +:+ " and error " +:+ body))).

End ClientOperations.

(** ** A stand-in for the vendored packages and for a cluster

    Used to run the client on concrete inputs: series, rule groups and
    configurations are kept as text, and the cluster answers every request
    with one fixed response. *)

Module Fake.

Definition hasSpace (s : string) : bool := URL.mem_ascii " " s.

Definition packages : Packages := {|
  prompb_TimeSeries := string;
  rulefmt_RuleGroup := string;
  alertConfig_Config := string;
  model_Value := string;
  Config_zero := "";
  url_Parse := fun s =>
    if hasSpace s then Some (foreign "invalid character in host name")
    else None;
  url_ResolveReference := fun _ ref =>
    if hasSpace ref then Err (foreign "invalid character in host name")
    else Ok ref;
  url_JoinPath := fun address ep => address +:+ ep;
  http_stripPassword := fun url => url;
  http_refererForURL := fun prev _ => prev;
  http_sameDomain := fun _ _ => true;
  proto_Marshal := fun wr => Ok (String.concat "," (Timeseries wr));
  snappy_Encode := fun data => "snappy:" +:+ data;
  yaml_Marshal_RuleGroup := fun rg => Ok rg;
  yaml_Marshal_userConfig := fun uc => Ok (AlertmanagerConfig uc);
  yaml_Unmarshal_RuleGroups := fun _ m => (m, None);
  json_Unmarshal_ServerStatus := fun body =>
    match body with
    | String "{" yml => Ok (Some {| Data := {| ConfigYaml := yml |} |})
    | _ => if String.eqb body "null" then Ok None
           else Err (foreign "invalid character looking for beginning of value")
    end;
  yaml_Unmarshal_Config := fun data _ => (data, None)
|}.

Definition response (status : Z) (body : string) : Response :=
  {| StatusCode := status;
     RespHeader := ∅;
     RespBody := {| content := body; fault := None; closed := false;
                    noBody := false |} |}.

(** A redirect to [location]. *)
Definition redirect (status : Z) (location : string) : Response :=
  {| StatusCode := status;
     RespHeader := {[ "Location" := [location] ]};
     RespBody := {| content := ""; fault := None; closed := false;
                    noBody := true |} |}.

(** A cluster that answers every request with [status] and [body]. *)
Definition cluster (status : Z) (body : string) : Env (pkgs := packages) :=
  fun e =>
    match e return Answer (pkgs := packages) e with
    | NetRoundTrip _ => Ok (response status body)
    | API_Query _ _ _ _ => (None, [], None)
    | API_LabelValues _ _ _ _ _ => ([], [], None)
    | API_LabelNames _ _ _ _ => ([], [], None)
    end.

(** A cluster that answers every request with a redirect to [location]. *)
Definition redirecting (status : Z) (location : string) :
    Env (pkgs := packages) :=
  fun e =>
    match e return Answer (pkgs := packages) e with
    | NetRoundTrip _ => Ok (redirect status location)
    | API_Query _ _ _ _ => (None, [], None)
    | API_LabelValues _ _ _ _ _ => ([], [], None)
    | API_LabelNames _ _ _ _ => ([], [], None)
    end.

(** A cluster that has moved to [location]: a request for any other URL is
    answered with a 307 to it, a request for it with [status] and [body]. *)
Definition moved (location : string) (status : Z) (body : string) :
    Env (pkgs := packages) :=
  fun e =>
    match e return Answer (pkgs := packages) e with
    | NetRoundTrip req =>
        if String.eqb (URL req) location then Ok (response status body)
        else Ok (redirect 307 location)
    | API_Query _ _ _ _ => (None, [], None)
    | API_LabelValues _ _ _ _ _ => ([], [], None)
    | API_LabelNames _ _ _ _ => ([], [], None)
    end.

(** A cluster that cannot be reached. *)
Definition unreachable : Env (pkgs := packages) :=
  fun e =>
    match e return Answer (pkgs := packages) e with
    | NetRoundTrip _ => Err (foreign "connection refused")
    | API_Query _ _ _ _ => (None, [], Some (foreign "connection refused"))
    | API_LabelValues _ _ _ _ _ => ([], [], Some (foreign "connection refused"))
    | API_LabelNames _ _ _ _ => ([], [], Some (foreign "connection refused"))
    end.

(** Packages whose marshallers refuse everything. *)
Definition refusing : Packages := {|
  prompb_TimeSeries := string;
  rulefmt_RuleGroup := string;
  alertConfig_Config := string;
  model_Value := string;
  Config_zero := "";
  url_Parse := @url_Parse packages;
  url_ResolveReference := @url_ResolveReference packages;
  url_JoinPath := @url_JoinPath packages;
  http_stripPassword := @http_stripPassword packages;
  http_refererForURL := @http_refererForURL packages;
  http_sameDomain := @http_sameDomain packages;
  proto_Marshal := fun _ => Err (foreign "proto: required field not set");
  snappy_Encode := @snappy_Encode packages;
  yaml_Marshal_RuleGroup := fun _ => Err (foreign "yaml: cannot marshal");
  yaml_Marshal_userConfig := fun _ => Err (foreign "yaml: cannot marshal");
  yaml_Unmarshal_RuleGroups := fun _ m => (m, None);
  json_Unmarshal_ServerStatus := @json_Unmarshal_ServerStatus packages;
  yaml_Unmarshal_Config := fun data _ => (data, None)
|}.

(** A cluster whose responses break off while the body is read. *)
Definition truncating (status : Z) (body : string) : Env (pkgs := packages) :=
  fun e =>
    match e return Answer (pkgs := packages) e with
    | NetRoundTrip _ =>
        Ok {| StatusCode := status;
              RespHeader := ∅;
              RespBody := {| content := body;
                             fault := Some (foreign "unexpected EOF");
                             closed := false;
                             noBody := false |} |}
    | API_Query _ _ _ _ => (None, [], None)
    | API_LabelValues _ _ _ _ _ => ([], [], None)
    | API_LabelNames _ _ _ _ => ([], [], None)
    end.

(** The client of tenant [user-1] as [NewClient] builds it, without and with
    an alertmanager. *)
Definition roundTripper : addOrgIDRoundTripper Transport.Default :=
  {| Transport.orgID := "user-1"; Transport.next := DefaultTransport |}.

Definition user1 : Client :=
  {| alertmanagerClient := None;
     querierAddress := "querier:80";
     rulerAddress := "ruler:80";
     distributorAddress := "distributor:80";
     timeout := 5000000000;
     httpClient := {| Transport := DefaultTransport |};
     querierClient :=
       {| api_client :=
            {| endpoint := "http://querier:80/api/prom";
               client := {| Transport := roundTripper |} |} |};
     orgID := "user-1" |}.

(** The same client with a ruler address that no URL can hold; [NewClient]
    does not parse the ruler address. *)
Definition misaddressed : Client :=
  {| alertmanagerClient := None;
     querierAddress := "querier:80";
     rulerAddress := "ruler 80";
     distributorAddress := "distributor:80";
     timeout := 5000000000;
     httpClient := {| Transport := DefaultTransport |};
     querierClient := querierClient user1;
     orgID := "user-1" |}.

(** The alertmanager client of [user-1]. *)
Definition alertmanager : promapi_Client :=
  {| endpoint := "http://alertmanager:80";
     client := {| Transport := roundTripper |} |}.

Definition user1AM : Client := setAlertmanagerClient user1 alertmanager.

End Fake.

(** * Properties *)

(** ** Escaping of path segments *)

Section Escaping.
Import URL.

Lemma append_String (a : ascii) (r s : string) :
  String a r +:+ s = String a (r +:+ s).
Proof. reflexivity. Qed.

Lemma append_empty (s : string) : "" +:+ s = s.
Proof. reflexivity. Qed.

Lemma unhex_upperhex (n : nat) : (n < 16)%nat -> unhex (upperhex n) = Some n.
Proof.
  intros Hn.
  do 16 (destruct n as [|n]; [reflexivity|]).
  lia.
Qed.

Lemma upperhex_unreserved (n : nat) :
  (n < 16)%nat -> shouldEscape (upperhex n) encodePathSegment = false.
Proof.
  intros Hn.
  do 16 (destruct n as [|n]; [reflexivity|]).
  lia.
Qed.

Lemma nat_of_ascii_lt (c : ascii) : (nat_of_ascii c < 256)%nat.
Proof. apply nat_ascii_bounded. Qed.

Lemma PathUnescape_escapeByte (c : ascii) (rest r : string) :
  PathUnescape rest = Some r ->
  PathUnescape (escapeByte c +:+ rest) = Some (String c r).
Proof.
  intros Hrest. unfold escapeByte. rewrite !append_String, append_empty. cbn [PathUnescape].
  pose proof (nat_of_ascii_lt c) as Hc.
  assert (Hhi : (nat_of_ascii c / 16 < 16)%nat)
    by (apply Nat.Div0.div_lt_upper_bound; lia).
  assert (Hlo : (nat_of_ascii c mod 16 < 16)%nat)
    by (apply Nat.mod_upper_bound; lia).
  change (Ascii.eqb "%" "%") with true. cbv iota.
  rewrite (unhex_upperhex _ Hhi), (unhex_upperhex _ Hlo), Hrest.
  f_equal. f_equal.
  rewrite <- (ascii_nat_embedding c) at 3. f_equal.
  rewrite (Nat.div_mod_eq (nat_of_ascii c) 16) at 3. lia.
Qed.

Lemma unescaped_not_percent (c : ascii) :
  shouldEscape c encodePathSegment = false -> Ascii.eqb c "%" = false.
Proof.
  intros Hc. destruct (Ascii.eqb_spec c "%") as [->|]; [|reflexivity].
  discriminate Hc.
Qed.

Lemma PathUnescape_PathEscape (s : string) :
  PathUnescape (PathEscape s) = Some s.
Proof.
  unfold PathEscape. induction s as [|c s IH]; [reflexivity|].
  cbn [escape]. destruct (shouldEscape c encodePathSegment) eqn:Hc.
  - now apply PathUnescape_escapeByte.
  - cbn [PathUnescape]. now rewrite (unescaped_not_percent _ Hc), IH.
Qed.

Lemma PathEscape_segmentBytes (s : string) :
  forallb segmentByte (list_ascii_of_string (PathEscape s)) = true.
Proof.
  unfold PathEscape. induction s as [|c s IH]; [reflexivity|].
  cbn [escape]. destruct (shouldEscape c encodePathSegment) eqn:Hc.
  - unfold escapeByte. rewrite !append_String, append_empty.
    cbn [list_ascii_of_string forallb].
    pose proof (nat_of_ascii_lt c) as Hlt.
    rewrite IH. unfold segmentByte at 2 3.
    rewrite !upperhex_unreserved.
    + cbn [negb]. now rewrite !orb_true_r.
    + apply Nat.mod_upper_bound; lia.
    + apply Nat.Div0.div_lt_upper_bound; lia.
  - cbn [list_ascii_of_string forallb]. rewrite IH.
    unfold segmentByte. rewrite Hc. now rewrite orb_true_r.
Qed.






Lemma append_inj_l (p a b : string) : p +:+ a = p +:+ b -> a = b.
Proof.
  induction p as [|c p IH]; [easy|].
  rewrite !append_String. intros [= H]. now apply IH.
Qed.

Lemma PathEscape_inj (a b : string) : PathEscape a = PathEscape b -> a = b.
Proof.
  intros Heq.
  pose proof (PathUnescape_PathEscape a) as Ha.
  rewrite Heq, PathUnescape_PathEscape in Ha. now injection Ha.
Qed.

(** Two texts without a slash that agree up to what follows their first
    slash are equal, and so is what follows. *)
Lemma slash_split_unique (a a' b b' : string) :
  forallb segmentByte (list_ascii_of_string a) = true ->
  forallb segmentByte (list_ascii_of_string a') = true ->
  a +:+ String "/" b = a' +:+ String "/" b' ->
  a = a' /\ b = b'.
Proof.
  revert a'. induction a as [|c a IH]; intros [|c' a'] Ha Ha'.
  - rewrite !append_empty. now intros [= ->].
  - rewrite append_empty, append_String. intros [= <- _].
    cbn in Ha'. discriminate Ha'.
  - rewrite append_empty, append_String. intros [= -> _].
    cbn in Ha. discriminate Ha.
  - rewrite !append_String. intros [= -> Hrest].
    cbn [list_ascii_of_string forallb] in Ha, Ha'.
    apply andb_prop in Ha as [_ Ha]. apply andb_prop in Ha' as [_ Ha'].
    destruct (IH a' Ha Ha' Hrest) as [-> ->]. easy.
Qed.

Lemma slash_not_segment (a b : string) :
  forallb segmentByte (list_ascii_of_string (a +:+ String "/" b)) = false.
Proof.
  induction a as [|c a IH]; [reflexivity|].
  rewrite append_String. cbn [list_ascii_of_string forallb].
  rewrite IH. apply andb_false_r.
Qed.

End Escaping.

(** ** Headers *)

Section Headers.

Lemma canonical_tenant_key : CanonicalMIMEHeaderKey "X-Scope-OrgID" = "X-Scope-Orgid".
Proof. reflexivity. Qed.

Lemma Header_Values_Set (h : http_Header) (key value : string) :
  Header_Values (Header_Set h key value) key = [value].
Proof. unfold Header_Values, Header_Set. now rewrite lookup_insert_eq. Qed.

Lemma Header_Get_Set (h : http_Header) (key value : string) :
  Header_Get (Header_Set h key value) key = value.
Proof. unfold Header_Get. now rewrite Header_Values_Set. Qed.

Lemma Header_Set_frame (h : http_Header) (key value : string) :
  delete (CanonicalMIMEHeaderKey key) (Header_Set h key value)
  = delete (CanonicalMIMEHeaderKey key) h.
Proof. unfold Header_Set. apply delete_insert_eq. Qed.

Lemma Header_Add_empty (key value : string) :
  Header_Add ∅ key value = <[CanonicalMIMEHeaderKey key := [value]]> ∅.
Proof. unfold Header_Add, Header_Values. now rewrite lookup_empty. Qed.

End Headers.

(** ** Exchanges of the HTTP client *)

Section Exchanges.
Context `{pkgs : Packages}.

Lemma run_bind {A B : Type} (env : Env) (m : IO A) (k : A -> IO B) :
  run env (bind m k)
  = match run env m with
    | Returned a => run env (k a)
    | Panicked msg => Panicked msg
    end.
Proof. induction m as [a|msg|e k' IH]; cbn; auto. Qed.

Lemma trace_bind {A B : Type} (env : Env) (m : IO A) (k : A -> IO B) :
  trace env (bind m k)
  = (trace env m
     ++ match run env m with
        | Returned a => trace env (k a)
        | Panicked _ => []
        end)%list.
Proof.
  induction m as [a|msg|e k' IH]; cbn; auto.
  now rewrite IH.
Qed.

(** A transport that puts each request, changed by [f], on the network. *)
Section Sending.
Context {T : Type} `{RoundTripper T} (tr : T) (f : Request -> Request).
Hypothesis Hsends :
  forall req : Request, RoundTrip tr req = trigger (NetRoundTrip (f req)).

Ltac hop h :=
  destruct h; cbn [do_hops]; unfold mbind, IO_bind; rewrite Hsends; cbn.

Lemma do_hops_head (env : Env) (h : nat) (ireq req : Request) :
  exists rest : list Event,
    trace env (do_hops h tr ireq req) = NetRoundTrip (f req) :: rest.
Proof. hop h; eauto. Qed.

Lemma do_hops_Forall (P : Event -> Prop) (env : Env) (ireq : Request) :
  (forall (m u prev : string) (b : option bytes),
      P (NetRoundTrip
           (f {| Method := m; URL := u;
                 Header := redirectHeader (Header ireq) prev u;
                 Body := b; ctx := ctx ireq |}))) ->
  forall (h : nat) (req : Request),
    P (NetRoundTrip (f req)) ->
    Forall P (trace env (do_hops h tr ireq req)).
Proof.
  intros Hnext. induction h as [|h IH]; intros req Hreq.
  - cbn [do_hops]. unfold mbind, IO_bind. rewrite Hsends. cbn.
    constructor; [assumption|].
    destruct (env _) as [resp|e]; [|constructor].
    destruct (redirectBehavior _ _) as [[m [|]] ib]; [|constructor].
    destruct (decide _); [constructor|].
    destruct (url_ResolveReference _ _); constructor.
  - cbn [do_hops]. unfold mbind, IO_bind. rewrite Hsends. cbn.
    constructor; [assumption|].
    destruct (env _) as [resp|e]; [|constructor].
    destruct (redirectBehavior _ _) as [[m [|]] ib]; [|constructor].
    destruct (decide _); [constructor|].
    destruct (url_ResolveReference _ _) as [u|e]; [|constructor].
    apply IH, Hnext.
Qed.

Lemma do_hops_length (env : Env) (ireq : Request) (h : nat) (req : Request) :
  (length (trace env (do_hops h tr ireq req)) <= S h)%nat.
Proof.
  revert req. induction h as [|h IH]; intros req.
  - cbn [do_hops]. unfold mbind, IO_bind. rewrite Hsends. cbn.
    destruct (env _) as [resp|e]; [|cbn; lia].
    destruct (redirectBehavior _ _) as [[m [|]] ib]; [|cbn; lia].
    destruct (decide _); [cbn; lia|].
    destruct (url_ResolveReference _ _); cbn; lia.
  - cbn [do_hops]. unfold mbind, IO_bind. rewrite Hsends. cbn.
    destruct (env _) as [resp|e]; [|cbn; lia].
    destruct (redirectBehavior _ _) as [[m [|]] ib]; [|cbn; lia].
    destruct (decide _); [cbn; lia|].
    destruct (url_ResolveReference _ _) as [u|e]; [|cbn; lia].
    specialize (IH {| Method := m; URL := u;
                      Header := redirectHeader (Header ireq) (URL req) u;
                      Body := if ib then Body ireq else None;
                      ctx := ctx ireq |}).
    lia.
Qed.

Lemma do_hops_delivered (env : Env) (h : nat) (ireq req : Request)
    (resp : Response) :
  env (NetRoundTrip (f req)) = Ok resp ->
  (redirectBehavior (Method req) resp).1.2 = false ->
  run env (do_hops h tr ireq req) = Returned (Ok resp)
  /\ trace env (do_hops h tr ireq req) = [NetRoundTrip (f req)].
Proof.
  intros Hresp Hno. cbn in Hresp.
  hop h; rewrite Hresp;
    destruct (redirectBehavior _ _) as [[m sr] ib]; cbn in Hno; subst sr;
    split; reflexivity.
Qed.

Lemma do_hops_failed (env : Env) (h : nat) (ireq req : Request) (e : error) :
  env (NetRoundTrip (f req)) = Err e ->
  run env (do_hops h tr ireq req) = Returned (Err (uerr ireq (URL req) e))
  /\ trace env (do_hops h tr ireq req) = [NetRoundTrip (f req)].
Proof.
  intros Herr. cbn in Herr. hop h; rewrite Herr; split; reflexivity.
Qed.

Lemma do_hops_returns (env : Env) (ireq : Request) (h : nat) (req : Request) :
  exists r : Result Response, run env (do_hops h tr ireq req) = Returned r.
Proof.
  revert req. induction h as [|h IH]; intros req.
  - cbn [do_hops]. unfold mbind, IO_bind. rewrite Hsends. cbn.
    destruct (env _) as [resp|e]; [|eauto].
    destruct (redirectBehavior _ _) as [[m [|]] ib]; [|eauto].
    destruct (decide _); [eauto|].
    destruct (url_ResolveReference _ _); eauto.
  - cbn [do_hops]. unfold mbind, IO_bind. rewrite Hsends. cbn.
    destruct (env _) as [resp|e]; [|eauto].
    destruct (redirectBehavior _ _) as [[m [|]] ib]; [|eauto].
    destruct (decide _); [eauto|].
    destruct (url_ResolveReference _ _) as [u|e]; [|eauto].
    apply IH.
Qed.

End Sending.

End Exchanges.

Ltac open_request :=
  unfold http_NewRequest, http_NewRequestWithContext.
Ltac finish :=
  split; [reflexivity | first [reflexivity | apply app_nil_r]].
Ltac through_bind :=
  unfold mbind, IO_bind; rewrite ?run_bind, ?trace_bind.

(** ** What each operation makes of its exchange *)

Section OperationExchanges.
Context `{pkgs : Packages}.

Lemma Default_sends (tr : Transport.Default) (req : Request) :
  RoundTrip tr req = trigger (NetRoundTrip req).
Proof. reflexivity. Qed.

Lemma addOrgID_sends (rt : addOrgIDRoundTripper Transport.Default)
    (req : Request) :
  RoundTrip rt req
  = trigger (NetRoundTrip
               (Request_withHeader req
                  (Header_Set (Header req) "X-Scope-OrgID"
                     (Transport.orgID rt)))).
Proof. destruct rt as [o []]. reflexivity. Qed.

(** The tenant header survives the copy of the headers to the next hop. *)
Lemma redirectHeader_tenant (first : http_Header) (prev next : string) :
  Header_Values (redirectHeader first prev next) "X-Scope-OrgID"
  = Header_Values first "X-Scope-OrgID".
Proof.
  unfold redirectHeader.
  assert (Hcopied :
    Header_Values
      (filter (fun kv => shouldCopyHeaderOnRedirect kv.1 prev next = true)
         first) "X-Scope-OrgID"
    = Header_Values first "X-Scope-OrgID").
  { unfold Header_Values. rewrite canonical_tenant_key.
    destruct (first !! "X-Scope-Orgid") as [v|] eqn:Hv.
    - erewrite (map_lookup_filter_Some_2 _ first "X-Scope-Orgid" v);
        [reflexivity|exact Hv|reflexivity].
    - now rewrite map_lookup_filter_None_2 by (left; exact Hv). }
  destruct (decide _); [exact Hcopied|].
  rewrite <- Hcopied. unfold Header_Values, Header_Set.
  now rewrite lookup_insert_ne by discriminate.
Qed.


Lemma Push_run (c : Client) (timeseries : list prompb_TimeSeries)
    (data : bytes) (env : Env) :
  proto_Marshal {| Timeseries := timeseries |} = Ok data ->
  url_Parse ("http://" +:+ distributorAddress c +:+ "/api/prom/push") = None ->
  run env (Push c timeseries)
  = match run env (http_Client_Do (httpClient c) (pushRequest c data)) with
    | Returned (Ok res) =>
        Returned (Some (Response_withBody res (Close (RespBody res))), None)
    | Returned (Err err) => Returned (None, Some err)
    | Panicked msg => Panicked msg
    end
  /\ trace env (Push c timeseries)
     = trace env (http_Client_Do (httpClient c) (pushRequest c data)).
Proof.
  intros Hm Hu. unfold Push. open_request. rewrite Hm, Hu.
  through_bind.
  change (WithContext _ _) with (pushRequest c data).
  destruct (run env _) as [[res|e]|msg]; finish.
Qed.

Lemma QueryRaw_run (c : Client) (query : string) (env : Env) :
  url_Parse (URL (queryRawRequest c query)) = None ->
  run env (QueryRaw c query)
  = match run env (http_Client_Do (httpClient c) (queryRawRequest c query)) with
    | Returned (Ok res) =>
        let '(body, err, b) := ReadAll (RespBody res) in
        match err with
        | Some err => Returned (None, "", Some err)
        | None => Returned (Some (Response_withBody res (Close b)), body, None)
        end
    | Returned (Err err) => Returned (None, "", Some err)
    | Panicked msg => Panicked msg
    end
  /\ trace env (QueryRaw c query)
     = trace env (http_Client_Do (httpClient c) (queryRawRequest c query)).
Proof.
  intros Hu. cbn [URL queryRawRequest] in Hu.
  unfold QueryRaw. open_request. rewrite Hu. through_bind.
  change (Request_withHeader _ _) with (queryRawRequest c query).
  destruct (run env _) as [[res|e]|msg]; try finish.
  destruct (ReadAll _) as [[body [e|]] b]; finish.
Qed.

Lemma GetRuleGroups_run (c : Client) (env : Env) :
  url_Parse (URL (getRuleGroupsRequest c)) = None ->
  run env (GetRuleGroups c)
  = match run env (http_Client_Do (httpClient c) (getRuleGroupsRequest c)) with
    | Returned (Ok res) =>
        let '(data, err, _) := ReadAll (RespBody res) in
        match err with
        | Some err => Returned (None, Some err)
        | None =>
            let '(rgs, err) := yaml_Unmarshal_RuleGroups data ∅ in
            match err with
            | Some err => Returned (None, Some err)
            | None => Returned (Some rgs, None)
            end
        end
    | Returned (Err err) => Returned (None, Some err)
    | Panicked msg => Panicked msg
    end
  /\ trace env (GetRuleGroups c)
     = trace env (http_Client_Do (httpClient c) (getRuleGroupsRequest c)).
Proof.
  intros Hu. cbn [URL getRuleGroupsRequest] in Hu.
  unfold GetRuleGroups. open_request. rewrite Hu. through_bind.
  change (WithContext _ _) with (getRuleGroupsRequest c).
  destruct (run env _) as [[res|e]|msg]; try finish.
  destruct (ReadAll _) as [[body [e|]] b]; [finish|].
  destruct (yaml_Unmarshal_RuleGroups _ _) as [rgs [e|]]; finish.
Qed.

Lemma SetRuleGroup_run (c : Client) (rulegroup : rulefmt_RuleGroup)
    (namespace : string) (data : bytes) (env : Env) :
  yaml_Marshal_RuleGroup rulegroup = Ok data ->
  url_Parse (URL (setRuleGroupRequest c data namespace)) = None ->
  run env (SetRuleGroup c rulegroup namespace)
  = match run env (http_Client_Do (httpClient c)
                     (setRuleGroupRequest c data namespace)) with
    | Returned (Ok res) => Returned None
    | Returned (Err err) => Returned (Some err)
    | Panicked msg => Panicked msg
    end
  /\ trace env (SetRuleGroup c rulegroup namespace)
     = trace env (http_Client_Do (httpClient c)
                    (setRuleGroupRequest c data namespace)).
Proof.
  intros Hm Hu. cbn [URL setRuleGroupRequest] in Hu.
  unfold SetRuleGroup. open_request. rewrite Hm, Hu. through_bind.
  change (WithContext _ _) with (setRuleGroupRequest c data namespace).
  destruct (run env _) as [[res|e]|msg]; finish.
Qed.

Lemma DeleteRuleGroup_run (c : Client) (namespace groupName : string)
    (env : Env) :
  url_Parse (URL (deleteRuleGroupRequest c namespace groupName)) = None ->
  run env (DeleteRuleGroup c namespace groupName)
  = match run env (http_Client_Do (httpClient c)
                     (deleteRuleGroupRequest c namespace groupName)) with
    | Returned (Ok res) => Returned None
    | Returned (Err err) => Returned (Some err)
    | Panicked msg => Panicked msg
    end
  /\ trace env (DeleteRuleGroup c namespace groupName)
     = trace env (http_Client_Do (httpClient c)
                    (deleteRuleGroupRequest c namespace groupName)).
Proof.
  intros Hu. cbn [URL deleteRuleGroupRequest] in Hu.
  unfold DeleteRuleGroup. open_request. rewrite Hu. through_bind.
  change (WithContext _ _) with (deleteRuleGroupRequest c namespace groupName).
  destruct (run env _) as [[res|e]|msg]; finish.
Qed.

Lemma promapi_Do_run (am : promapi_Client) (cx : Context) (req : Request)
    (env : Env) :
  run env (promapi_Do am cx req)
  = match run env (http_Client_Do (client am) (WithContext req cx)) with
    | Returned (Ok resp) =>
        let '(body, err, b) := ReadAll (RespBody resp) in
        Returned (Some (Response_withBody resp (Close b)), body, err)
    | Returned (Err err) => Returned (None, "", Some err)
    | Panicked msg => Panicked msg
    end
  /\ trace env (promapi_Do am cx req)
     = trace env (http_Client_Do (client am) (WithContext req cx)).
Proof.
  unfold promapi_Do. through_bind.
  destruct (run env _) as [[resp|e]|msg]; try finish.
  destruct (ReadAll _) as [[body err] b]; finish.
Qed.

Lemma GetAlertmanagerConfig_run (c : Client) (am : promapi_Client)
    (cx : Context) (env : Env) :
  alertmanagerClient c = Some am ->
  url_Parse (promapi_URL am "/api/prom/api/v1/status") = None ->
  run env (GetAlertmanagerConfig c cx)
  = match run env (promapi_Do am cx
                     (alertmanagerRequest am Background "GET"
                        "/api/prom/api/v1/status" None)) with
    | Returned (_, _, Some err) => Returned (None, Some err)
    | Returned (Some resp, body, None) =>
        if decide (StatusCode resp = StatusNotFound)
        then Returned (None, Some ErrNotFound)
        else decodeStatusBody body
    | Returned (None, _, None) => Panicked nilDereference
    | Panicked msg => Panicked msg
    end
  /\ trace env (GetAlertmanagerConfig c cx)
     = trace env (promapi_Do am cx
                    (alertmanagerRequest am Background "GET"
                       "/api/prom/api/v1/status" None)).
Proof.
  intros Ham Hu. unfold GetAlertmanagerConfig. open_request.
  rewrite Ham, Hu. through_bind.
  change (mkRequest "GET" _ ∅ None Background)
    with (alertmanagerRequest am Background "GET"
            "/api/prom/api/v1/status" None).
  destruct (run env _) as [[[[resp|] body] [e|]]|msg]; try finish.
  destruct (decide _); [finish|]. unfold decodeStatusBody.
  destruct (json_Unmarshal_ServerStatus _) as [[ss|]|e]; try finish.
  destruct (yaml_Unmarshal_Config _ _); finish.
Qed.

Lemma SetAlertmanagerConfig_run (c : Client) (am : promapi_Client)
    (cx : Context) (amConfig : string) (templates : gmap string string)
    (data : bytes) (env : Env) :
  alertmanagerClient c = Some am ->
  yaml_Marshal_userConfig {| TemplateFiles := templates;
                             AlertmanagerConfig := amConfig |} = Ok data ->
  url_Parse (promapi_URL am "/api/v1/alerts") = None ->
  run env (SetAlertmanagerConfig c cx amConfig templates)
  = match run env (promapi_Do am cx
                     (alertmanagerRequest am Background "POST"
                        "/api/v1/alerts" (Some data))) with
    | Returned (_, _, Some err) => Returned (Some err)
    | Returned (Some resp, body, None) =>
        byStatus StatusCreated "setting" (StatusCode resp) body
    | Returned (None, _, None) => Panicked nilDereference
    | Panicked msg => Panicked msg
    end
  /\ trace env (SetAlertmanagerConfig c cx amConfig templates)
     = trace env (promapi_Do am cx
                    (alertmanagerRequest am Background "POST"
                       "/api/v1/alerts" (Some data))).
Proof.
  intros Ham Hm Hu. unfold SetAlertmanagerConfig. open_request.
  rewrite Ham, Hm, Hu. through_bind.
  change (mkRequest "POST" _ ∅ (Some data) Background)
    with (alertmanagerRequest am Background "POST" "/api/v1/alerts"
            (Some data)).
  destruct (run env _) as [[[[resp|] body] [e|]]|msg]; try finish.
  unfold byStatus, statusError, StatusCreated, StatusNotFound.
  repeat (destruct (decide _)); try finish; exfalso; lia.
Qed.

Lemma DeleteAlertmanagerConfig_run (c : Client) (am : promapi_Client)
    (cx : Context) (env : Env) :
  alertmanagerClient c = Some am ->
  url_Parse (promapi_URL am "/api/v1/alerts") = None ->
  run env (DeleteAlertmanagerConfig c cx)
  = match run env (promapi_Do am cx
                     (alertmanagerRequest am Background "DELETE"
                        "/api/v1/alerts" None)) with
    | Returned (_, _, Some err) => Returned (Some err)
    | Returned (Some resp, body, None) =>
        byStatus StatusOK "deleting" (StatusCode resp) body
    | Returned (None, _, None) => Panicked nilDereference
    | Panicked msg => Panicked msg
    end
  /\ trace env (DeleteAlertmanagerConfig c cx)
     = trace env (promapi_Do am cx
                    (alertmanagerRequest am Background "DELETE"
                       "/api/v1/alerts" None)).
Proof.
  intros Ham Hu. unfold DeleteAlertmanagerConfig. open_request.
  rewrite Ham, Hu. through_bind.
  change (mkRequest "DELETE" _ ∅ None Background)
    with (alertmanagerRequest am Background "DELETE" "/api/v1/alerts" None).
  destruct (run env _) as [[[[resp|] body] [e|]]|msg]; try finish.
  unfold byStatus, statusError, StatusOK, StatusNotFound.
  repeat (destruct (decide _)); try finish; exfalso; lia.
Qed.

(** What the request is as the transport [rt] puts it on the network. *)
Lemma Do_head (cl : http_Client Transport.Default) (req : Request)
    (env : Env) :
  exists rest : list Event,
    trace env (http_Client_Do cl req) = NetRoundTrip req :: rest.
Proof.
  unfold http_Client_Do.
  apply (do_hops_head (Transport cl) (fun r => r) (Default_sends _)).
Qed.

Lemma Do_delivered (cl : http_Client Transport.Default) (req : Request)
    (env : Env) (resp : Response) :
  env (NetRoundTrip req) = Ok resp ->
  (redirectBehavior (Method req) resp).1.2 = false ->
  run env (http_Client_Do cl req) = Returned (Ok resp)
  /\ trace env (http_Client_Do cl req) = [NetRoundTrip req].
Proof.
  unfold http_Client_Do.
  apply (do_hops_delivered (Transport cl) (fun r => r) (Default_sends _)).
Qed.

Lemma Do_failed (cl : http_Client Transport.Default) (req : Request)
    (env : Env) (e : error) :
  env (NetRoundTrip req) = Err e ->
  run env (http_Client_Do cl req) = Returned (Err (uerr req (URL req) e))
  /\ trace env (http_Client_Do cl req) = [NetRoundTrip req].
Proof.
  unfold http_Client_Do.
  apply (do_hops_failed (Transport cl) (fun r => r) (Default_sends _)).
Qed.

End OperationExchanges.

(** ** The tenant-scoping transport *)

Section TenantScoping.
Context `{pkgs : Packages}.

(** C7. [addOrgIDRoundTripper.RoundTrip] hands the wrapped transport, once,
    the request it was given with [X-Scope-OrgID] set to the configured
    tenant: whatever values the header had are replaced by that single one,
    every other header entry, the method, the URL, the body and the context
    are as they were, and the result of the wrapped transport is the result
    of the call. *)
Theorem RoundTrip_sets_tenant_header (N : Type) `{RoundTripper N}
    (r : addOrgIDRoundTripper N) (req : Request) :
  exists req' : Request,
    RoundTrip r req = RoundTrip (Transport.next r) req'
    /\ Header_Values (Header req') "X-Scope-OrgID" = [Transport.orgID r]
    /\ Header_Get (Header req') "X-Scope-OrgID" = Transport.orgID r
    /\ delete "X-Scope-Orgid" (Header req') = delete "X-Scope-Orgid" (Header req)
    /\ Method req' = Method req
    /\ URL req' = URL req
    /\ Body req' = Body req
    /\ ctx req' = ctx req.
Proof.
  exists (Request_withHeader req
            (Header_Set (Header req) "X-Scope-OrgID" (Transport.orgID r))).
  split; [reflexivity|].
  cbn [Header Request_withHeader Method URL Body ctx].
  rewrite Header_Values_Set, Header_Get_Set.
  rewrite <- canonical_tenant_key at 1 2.
  rewrite Header_Set_frame.
  repeat split; reflexivity.
Qed.

(** Over the default transport the wrapped call is one network round trip,
    whose answer is returned as it is. *)
Lemma RoundTrip_over_default (r : addOrgIDRoundTripper Transport.Default)
    (req : Request) (env : Env) :
  let sent := Request_withHeader req
                (Header_Set (Header req) "X-Scope-OrgID" (Transport.orgID r)) in
  trace env (RoundTrip r req) = [NetRoundTrip sent]
  /\ run env (RoundTrip r req) = Returned (env (NetRoundTrip sent)).
Proof. split; reflexivity. Qed.

End TenantScoping.

(** ** Push *)

Section PushProperties.
Context `{pkgs : Packages}.

(** C6. When the batch marshals and the push URL of the distributor parses,
    any run of [Push] begins by sending this request: a POST to
    [http://<distributor>/api/prom/push] whose body is the snappy encoding
    of the marshalled write request holding the whole batch, and whose
    headers are exactly Content-Encoding: snappy, Content-Type:
    application/x-protobuf, X-Prometheus-Remote-Write-Version: 0.1.0 and
    X-Scope-OrgID: the client's tenant.  It is the only request of the run
    unless the distributor answers it with a redirect. *)
Theorem Push_request (c : Client) (timeseries : list prompb_TimeSeries)
    (data : bytes) (env : Env) :
  proto_Marshal {| Timeseries := timeseries |} = Ok data ->
  url_Parse ("http://" +:+ distributorAddress c +:+ "/api/prom/push") = None ->
  exists req : Request,
    (exists rest : list Event,
        trace env (Push c timeseries) = NetRoundTrip req :: rest)
    /\ Method req = "POST"
    /\ URL req = "http://" +:+ distributorAddress c +:+ "/api/prom/push"
    /\ Body req = Some (snappy_Encode data)
    /\ Header req =
         <["X-Scope-Orgid" := [orgID c]]>
           (<["X-Prometheus-Remote-Write-Version" := ["0.1.0"]]>
              (<["Content-Type" := ["application/x-protobuf"]]>
                 (<["Content-Encoding" := ["snappy"]]> ∅)))
    /\ Header_Get (Header req) "Content-Encoding" = "snappy"
    /\ Header_Get (Header req) "Content-Type" = "application/x-protobuf"
    /\ Header_Get (Header req) "X-Prometheus-Remote-Write-Version" = "0.1.0"
    /\ Header_Get (Header req) "X-Scope-OrgID" = orgID c
    /\ (forall resp : Response,
           env (NetRoundTrip req) = Ok resp ->
           (redirectBehavior "POST" resp).1.2 = false ->
           trace env (Push c timeseries) = [NetRoundTrip req]).
Proof.
  intros Hm Hu. destruct (Push_run c timeseries data env Hm Hu) as [_ Htr].
  exists (pushRequest c data). rewrite Htr.
  split; [apply Do_head|].
  repeat split; try reflexivity.
  intros resp Hresp Hno.
  now destruct (Do_delivered (httpClient c) _ env resp Hresp Hno).
Qed.

End PushProperties.

(** ** Rule management *)

Section RuleManagement.
Context `{pkgs : Packages}.

Lemma SetRuleGroup_first (c : Client) (rulegroup : rulefmt_RuleGroup)
    (namespace : string) (env : Env) (req : Request) (rest : list Event) :
  trace env (SetRuleGroup c rulegroup namespace) = NetRoundTrip req :: rest ->
  exists data : bytes, req = setRuleGroupRequest c data namespace.
Proof.
  destruct (yaml_Marshal_RuleGroup rulegroup) as [data|e] eqn:Hm.
  - destruct (url_Parse (URL (setRuleGroupRequest c data namespace)))
      as [e|] eqn:Hu.
    + cbn [URL setRuleGroupRequest] in Hu.
      unfold SetRuleGroup. open_request. rewrite Hm, Hu. discriminate.
    + destruct (SetRuleGroup_run c rulegroup namespace data env Hm Hu)
        as [_ ->].
      destruct (Do_head (httpClient c) (setRuleGroupRequest c data namespace)
                  env) as [rest' ->].
      intros [= <- _]. now exists data.
  - unfold SetRuleGroup. rewrite Hm. discriminate.
Qed.

Lemma DeleteRuleGroup_first (c : Client) (namespace groupName : string)
    (env : Env) (req : Request) (rest : list Event) :
  trace env (DeleteRuleGroup c namespace groupName) = NetRoundTrip req :: rest ->
  req = deleteRuleGroupRequest c namespace groupName.
Proof.
  destruct (url_Parse (URL (deleteRuleGroupRequest c namespace groupName)))
    as [e|] eqn:Hu.
  - cbn [URL deleteRuleGroupRequest] in Hu.
    unfold DeleteRuleGroup. open_request. rewrite Hu. discriminate.
  - destruct (DeleteRuleGroup_run c namespace groupName env Hu) as [_ ->].
    destruct (Do_head (httpClient c)
                (deleteRuleGroupRequest c namespace groupName) env)
      as [rest' ->].
    now intros [= <- _].
Qed.



End RuleManagement.

(** ** Alertmanager configuration *)

Section Alertmanager.
Context `{pkgs : Packages}.

(** C1, as the code has it.  For a set or delete of the alertmanager
    configuration to which [Do] of the alertmanager client returns a
    response and its body with a nil error: the call returns nil exactly
    when the status is 201 (set) or 200 (delete), the sentinel
    [ErrNotFound] when it is 404, and for every other status an error whose
    message holds the status in decimal and the body. *)
Theorem alertmanager_write_status (c : Client) (am : promapi_Client)
    (cx : Context) (amConfig : string) (templates : gmap string string)
    (data : bytes) (env : Env) (resp : Response) (body : bytes) :
  alertmanagerClient c = Some am ->
  url_Parse (promapi_URL am "/api/v1/alerts") = None ->
  (yaml_Marshal_userConfig {| TemplateFiles := templates;
                              AlertmanagerConfig := amConfig |} = Ok data ->
   run env (promapi_Do am cx
              (alertmanagerRequest am Background "POST" "/api/v1/alerts"
                 (Some data)))
   = Returned (Some resp, body, None) ->
   (run env (SetAlertmanagerConfig c cx amConfig templates) = Returned None
    <-> StatusCode resp = 201)
   /\ (StatusCode resp = 404 ->
       run env (SetAlertmanagerConfig c cx amConfig templates)
       = Returned (Some ErrNotFound))
   /\ (StatusCode resp <> 201 -> StatusCode resp <> 404 ->
       run env (SetAlertmanagerConfig c cx amConfig templates)
       = Returned (Some (fmt_Errorf
                           ("setting config failed with status "
                            +:+ itoa (StatusCode resp) +:+ " and error "
                            +:+ body)))))
  /\ (run env (promapi_Do am cx
                 (alertmanagerRequest am Background "DELETE" "/api/v1/alerts"
                    None))
      = Returned (Some resp, body, None) ->
      (run env (DeleteAlertmanagerConfig c cx) = Returned None
       <-> StatusCode resp = 200)
      /\ (StatusCode resp = 404 ->
          run env (DeleteAlertmanagerConfig c cx)
          = Returned (Some ErrNotFound))
      /\ (StatusCode resp <> 200 -> StatusCode resp <> 404 ->
          run env (DeleteAlertmanagerConfig c cx)
          = Returned (Some (fmt_Errorf
                              ("deleting config failed with status "
                               +:+ itoa (StatusCode resp) +:+ " and error "
                               +:+ body))))).
Proof.
  intros Ham Hu. split.
  - intros Hm Hdo.
    destruct (SetAlertmanagerConfig_run c am cx amConfig templates data env
                Ham Hm Hu) as [-> _].
    rewrite Hdo. unfold byStatus, StatusCreated, StatusNotFound.
    repeat (destruct (decide _)); repeat split; intros;
      try reflexivity; try congruence; try lia.
  - intros Hdo.
    destruct (DeleteAlertmanagerConfig_run c am cx env Ham Hu) as [-> _].
    rewrite Hdo. unfold byStatus, StatusOK, StatusNotFound.
    repeat (destruct (decide _)); repeat split; intros;
      try reflexivity; try congruence; try lia.
Qed.

(** C5, as the code has it.  When [Do] of the alertmanager client returns
    to [GetAlertmanagerConfig] a response of status 404 and its body with a
    nil error, the call returns no configuration and the sentinel
    [ErrNotFound], which is no formatted and no library error. *)
Theorem GetAlertmanagerConfig_not_found (c : Client) (am : promapi_Client)
    (cx : Context) (env : Env) (resp : Response) (body : bytes) :
  alertmanagerClient c = Some am ->
  url_Parse (promapi_URL am "/api/prom/api/v1/status") = None ->
  run env (promapi_Do am cx
             (alertmanagerRequest am Background "GET"
                "/api/prom/api/v1/status" None))
  = Returned (Some resp, body, None) ->
  StatusCode resp = 404 ->
  run env (GetAlertmanagerConfig c cx) = Returned (None, Some ErrNotFound)
  /\ (forall msg : string,
         ErrNotFound <> fmt_Errorf msg /\ ErrNotFound <> foreign msg).
Proof.
  intros Ham Hu Hdo Hstatus. split; [|split; discriminate].
  destruct (GetAlertmanagerConfig_run c am cx env Ham Hu) as [-> _].
  rewrite Hdo. now destruct (decide _).
Qed.


(** C9, as the code has it.  With an empty alertmanager address and a
    querier address that parses, [NewClient] succeeds and leaves the
    alertmanager client nil; each of the three alertmanager operations is
    then a nil dereference at its first statement: it panics, sends nothing
    and returns nothing. *)
Theorem no_alertmanager_panics (distributorAddress querierAddress
    rulerAddress orgID : string) :
  url_Parse ("http://" +:+ querierAddress +:+ "/api/prom") = None ->
  exists c : Client,
    NewClient distributorAddress querierAddress "" rulerAddress orgID = Ok c
    /\ alertmanagerClient c = None
    /\ forall (cx : Context) (amConfig : string)
         (templates : gmap string string),
         GetAlertmanagerConfig c cx = Panic nilDereference
         /\ SetAlertmanagerConfig c cx amConfig templates
            = Panic nilDereference
         /\ DeleteAlertmanagerConfig c cx = Panic nilDereference.
Proof.
  intros Hq. unfold NewClient, promapi_NewClient. rewrite Hq.
  destruct (decide _) as [Hne|_]; [now contradict Hne|].
  eexists. split; [reflexivity|]. split; [reflexivity|].
  intros cx amConfig templates. repeat split; reflexivity.
Qed.

End Alertmanager.

(** ** Deadlines *)

Section Deadlines.
Context `{pkgs : Packages}.

Lemma NewClient_timeout (distributorAddress querierAddress alertmanagerAddress
    rulerAddress orgID : string) (c : Client) :
  NewClient distributorAddress querierAddress alertmanagerAddress
    rulerAddress orgID = Ok c ->
  timeout c = 5 * Second.
Proof.
  unfold NewClient.
  destruct (promapi_NewClient _ _) as [q|e]; [|discriminate].
  destruct (decide _).
  - destruct (promapi_NewClient _ _) as [am|e]; [|discriminate].
    intros [= <-]. reflexivity.
  - intros [= <-]. reflexivity.
Qed.

Lemma Do_context (cl : http_Client Transport.Default) (req : Request)
    (env : Env) :
  allUnder (ctx req) (trace env (http_Client_Do cl req)).
Proof.
  unfold allUnder, http_Client_Do.
  now apply (do_hops_Forall (Transport cl) (fun r => r) (Default_sends _)).
Qed.

Lemma Do_context_scoped
    (cl : http_Client (addOrgIDRoundTripper Transport.Default))
    (req : Request) (env : Env) :
  allUnder (ctx req) (trace env (http_Client_Do cl req)).
Proof.
  unfold allUnder, http_Client_Do.
  now apply (do_hops_Forall (Transport cl) _ (addOrgID_sends _)).
Qed.

Lemma Push_context (c : Client) (timeseries : list prompb_TimeSeries)
    (env : Env) :
  allUnder (WithTimeout Background (timeout c)) (trace env (Push c timeseries)).
Proof.
  destruct (proto_Marshal {| Timeseries := timeseries |}) as [data|e] eqn:Hm;
    [|unfold Push; rewrite Hm; constructor].
  destruct (url_Parse ("http://" +:+ distributorAddress c +:+ "/api/prom/push"))
    as [e|] eqn:Hu;
    [unfold Push; open_request; rewrite Hm, Hu; constructor|].
  destruct (Push_run c timeseries data env Hm Hu) as [_ ->].
  apply (Do_context (httpClient c) (pushRequest c data)).
Qed.

Lemma QueryRaw_context (c : Client) (query : string) (env : Env) :
  allUnder (WithTimeout Background (timeout c)) (trace env (QueryRaw c query)).
Proof.
  destruct (url_Parse (URL (queryRawRequest c query))) as [e|] eqn:Hu.
  - cbn [URL queryRawRequest] in Hu.
    unfold QueryRaw. open_request. rewrite Hu. constructor.
  - destruct (QueryRaw_run c query env Hu) as [_ ->].
    apply (Do_context (httpClient c) (queryRawRequest c query)).
Qed.

Lemma GetRuleGroups_context (c : Client) (env : Env) :
  allUnder (WithTimeout Background (timeout c)) (trace env (GetRuleGroups c)).
Proof.
  destruct (url_Parse (URL (getRuleGroupsRequest c))) as [e|] eqn:Hu.
  - cbn [URL getRuleGroupsRequest] in Hu.
    unfold GetRuleGroups. open_request. rewrite Hu. constructor.
  - destruct (GetRuleGroups_run c env Hu) as [_ ->].
    apply (Do_context (httpClient c) (getRuleGroupsRequest c)).
Qed.

Lemma SetRuleGroup_context (c : Client) (rulegroup : rulefmt_RuleGroup)
    (namespace : string) (env : Env) :
  allUnder (WithTimeout Background (timeout c))
    (trace env (SetRuleGroup c rulegroup namespace)).
Proof.
  destruct (yaml_Marshal_RuleGroup rulegroup) as [data|e] eqn:Hm;
    [|unfold SetRuleGroup; rewrite Hm; constructor].
  destruct (url_Parse (URL (setRuleGroupRequest c data namespace)))
    as [e|] eqn:Hu.
  - cbn [URL setRuleGroupRequest] in Hu.
    unfold SetRuleGroup. open_request. rewrite Hm, Hu. constructor.
  - destruct (SetRuleGroup_run c rulegroup namespace data env Hm Hu)
      as [_ ->].
    apply (Do_context (httpClient c) (setRuleGroupRequest c data namespace)).
Qed.

Lemma DeleteRuleGroup_context (c : Client) (namespace groupName : string)
    (env : Env) :
  allUnder (WithTimeout Background (timeout c))
    (trace env (DeleteRuleGroup c namespace groupName)).
Proof.
  destruct (url_Parse (URL (deleteRuleGroupRequest c namespace groupName)))
    as [e|] eqn:Hu.
  - cbn [URL deleteRuleGroupRequest] in Hu.
    unfold DeleteRuleGroup. open_request. rewrite Hu. constructor.
  - destruct (DeleteRuleGroup_run c namespace groupName env Hu) as [_ ->].
    apply (Do_context (httpClient c)
             (deleteRuleGroupRequest c namespace groupName)).
Qed.

Lemma GetAlertmanagerConfig_context (c : Client) (cx : Context) (env : Env) :
  allUnder cx (trace env (GetAlertmanagerConfig c cx)).
Proof.
  destruct (alertmanagerClient c) as [am|] eqn:Ham;
    [|unfold GetAlertmanagerConfig; rewrite Ham; constructor].
  destruct (url_Parse (promapi_URL am "/api/prom/api/v1/status"))
    as [e|] eqn:Hu.
  - unfold GetAlertmanagerConfig. open_request. rewrite Ham, Hu. constructor.
  - destruct (GetAlertmanagerConfig_run c am cx env Ham Hu) as [_ ->].
    destruct (promapi_Do_run am cx
                (alertmanagerRequest am Background "GET"
                   "/api/prom/api/v1/status" None) env) as [_ ->].
    apply (Do_context_scoped (client am)
             (alertmanagerRequest am cx "GET" "/api/prom/api/v1/status" None)).
Qed.

Lemma SetAlertmanagerConfig_context (c : Client) (cx : Context)
    (amConfig : string) (templates : gmap string string) (env : Env) :
  allUnder cx (trace env (SetAlertmanagerConfig c cx amConfig templates)).
Proof.
  destruct (alertmanagerClient c) as [am|] eqn:Ham;
    [|unfold SetAlertmanagerConfig; rewrite Ham; constructor].
  destruct (yaml_Marshal_userConfig
              {| TemplateFiles := templates;
                 AlertmanagerConfig := amConfig |}) as [data|e] eqn:Hm;
    [|unfold SetAlertmanagerConfig; rewrite Ham, Hm; constructor].
  destruct (url_Parse (promapi_URL am "/api/v1/alerts")) as [e|] eqn:Hu.
  - unfold SetAlertmanagerConfig. open_request. rewrite Ham, Hm, Hu.
    constructor.
  - destruct (SetAlertmanagerConfig_run c am cx amConfig templates data env
                Ham Hm Hu) as [_ ->].
    destruct (promapi_Do_run am cx
                (alertmanagerRequest am Background "POST" "/api/v1/alerts"
                   (Some data)) env) as [_ ->].
    apply (Do_context_scoped (client am)
             (alertmanagerRequest am cx "POST" "/api/v1/alerts" (Some data))).
Qed.

Lemma DeleteAlertmanagerConfig_context (c : Client) (cx : Context)
    (env : Env) :
  allUnder cx (trace env (DeleteAlertmanagerConfig c cx)).
Proof.
  destruct (alertmanagerClient c) as [am|] eqn:Ham;
    [|unfold DeleteAlertmanagerConfig; rewrite Ham; constructor].
  destruct (url_Parse (promapi_URL am "/api/v1/alerts")) as [e|] eqn:Hu.
  - unfold DeleteAlertmanagerConfig. open_request. rewrite Ham, Hu.
    constructor.
  - destruct (DeleteAlertmanagerConfig_run c am cx env Ham Hu) as [_ ->].
    destruct (promapi_Do_run am cx
                (alertmanagerRequest am Background "DELETE" "/api/v1/alerts"
                   None) env) as [_ ->].
    apply (Do_context_scoped (client am)
             (alertmanagerRequest am cx "DELETE" "/api/v1/alerts" None)).
Qed.

(** C3, as the code has it.  For a client built by [NewClient]: every
    request of [Push], [QueryRaw], [GetRuleGroups], [SetRuleGroup] and
    [DeleteRuleGroup] carries a 5-second timeout on the background context;
    [Query], [LabelValues] and [LabelNames] hand the API client the bare
    background context, which has no deadline; every request of the three
    alertmanager operations carries the caller's context and nothing else. *)
Theorem deadline_disciplines (distributorAddress querierAddress
    alertmanagerAddress rulerAddress orgID : string) (c : Client)
    (env : Env) (timeseries : list prompb_TimeSeries) (query label : string)
    (ts : Time) (rulegroup : rulefmt_RuleGroup) (namespace groupName : string)
    (cx : Context) (amConfig : string) (templates : gmap string string) :
  NewClient distributorAddress querierAddress alertmanagerAddress
    rulerAddress orgID = Ok c ->
  (allUnder (WithTimeout Background (5 * Second))
     (trace env (Push c timeseries))
   /\ allUnder (WithTimeout Background (5 * Second))
        (trace env (QueryRaw c query))
   /\ allUnder (WithTimeout Background (5 * Second))
        (trace env (GetRuleGroups c))
   /\ allUnder (WithTimeout Background (5 * Second))
        (trace env (SetRuleGroup c rulegroup namespace))
   /\ allUnder (WithTimeout Background (5 * Second))
        (trace env (DeleteRuleGroup c namespace groupName)))
  /\ (trace env (Query c query ts)
      = [API_Query (querierClient c) Background query ts]
      /\ trace env (LabelValues c label)
         = [API_LabelValues (querierClient c) Background label
              Time_zero Time_zero]
      /\ trace env (LabelNames c)
         = [API_LabelNames (querierClient c) Background Time_zero Time_zero]
      /\ hasDeadline Background = false)
  /\ (allUnder cx (trace env (GetAlertmanagerConfig c cx))
      /\ allUnder cx (trace env (SetAlertmanagerConfig c cx amConfig templates))
      /\ allUnder cx (trace env (DeleteAlertmanagerConfig c cx))).
Proof.
  intros Hnew. rewrite <- (NewClient_timeout _ _ _ _ _ _ Hnew).
  split; [|split].
  - repeat split.
    + apply Push_context.
    + apply QueryRaw_context.
    + apply GetRuleGroups_context.
    + apply SetRuleGroup_context.
    + apply DeleteRuleGroup_context.
  - repeat split.
    + unfold Query. cbn. now destruct (env _) as [[? ?] ?].
    + unfold LabelValues. cbn. now destruct (env _) as [[? ?] ?].
    + unfold LabelNames. cbn. now destruct (env _) as [[? ?] ?].
  - repeat split.
    + apply GetAlertmanagerConfig_context.
    + apply SetAlertmanagerConfig_context.
    + apply DeleteAlertmanagerConfig_context.
Qed.

End Deadlines.

(** ** Construction *)

Section Construction.
Context `{pkgs : Packages}.

Lemma NewClient_shape (distributor querier alertmanager ruler tenant : string)
    (c : Client) :
  NewClient distributor querier alertmanager ruler tenant = Ok c ->
  distributorAddress c = distributor
  /\ querierAddress c = querier
  /\ rulerAddress c = ruler
  /\ orgID c = tenant
  /\ timeout c = 5 * Second
  /\ endpoint (api_client (querierClient c))
     = "http://" +:+ querier +:+ "/api/prom"
  /\ Transport.orgID (Transport (client (api_client (querierClient c))))
     = tenant
  /\ (alertmanager = "" -> alertmanagerClient c = None)
  /\ (alertmanager <> "" ->
      exists am : promapi_Client,
        alertmanagerClient c = Some am
        /\ endpoint am = "http://" +:+ alertmanager
        /\ Transport.orgID (Transport (client am)) = tenant).
Proof.
  unfold NewClient, promapi_NewClient.
  destruct (url_Parse _) as [e|]; [discriminate|].
  destruct (decide _) as [Hne|Heq].
  - destruct (url_Parse _) as [e|]; [discriminate|].
    intros [= <-]. cbn. repeat split; try reflexivity.
    + intros Hempty. contradiction.
    + intros _. eexists. repeat split; reflexivity.
  - intros [= <-]. cbn. repeat split; try reflexivity.
    intros Hne. contradict Heq. exact Hne.
Qed.

(** X1. [NewClient] fails exactly when the querier URL is refused, or when
    an alertmanager address is given and its URL is refused; the error is
    the parser's own.  An empty alertmanager address is never parsed. *)
Theorem NewClient_error (distributor querier alertmanager ruler tenant : string)
    (e : error) :
  NewClient distributor querier alertmanager ruler tenant = Err e
  <-> url_Parse ("http://" +:+ querier +:+ "/api/prom") = Some e
      \/ (url_Parse ("http://" +:+ querier +:+ "/api/prom") = None
          /\ alertmanager <> ""
          /\ url_Parse ("http://" +:+ alertmanager) = Some e).
Proof.
  unfold NewClient, promapi_NewClient.
  destruct (url_Parse ("http://" +:+ querier +:+ "/api/prom")) as [e1|].
  - split.
    + intros [= ->]. now left.
    + intros [[= ->]|[Hq _]]; [reflexivity|discriminate].
  - destruct (decide _) as [Hne|Heq].
    + destruct (url_Parse ("http://" +:+ alertmanager)) as [e2|].
      * split.
        -- intros [= ->]. right. easy.
        -- intros [Hq|(_ & _ & [= ->])]; [discriminate|reflexivity].
      * split; [discriminate|].
        intros [Hq|(_ & _ & Ham)]; discriminate.
    + split; [discriminate|].
      intros [Hq|(_ & Hne & _)]; [discriminate|].
      contradict Heq. exact Hne.
Qed.

(** X2. A client that [NewClient] returns holds the three addresses and the
    tenant as given and a timeout of 5 seconds; its querier API client
    addresses [http://<querier>/api/prom] through a round tripper of that
    tenant; its alertmanager client is nil exactly when the alertmanager
    address is empty, and otherwise addresses [http://<alertmanager>]
    through a round tripper of the same tenant. *)
Theorem NewClient_wiring (distributor querier alertmanager ruler tenant : string)
    (c : Client) :
  NewClient distributor querier alertmanager ruler tenant = Ok c ->
  distributorAddress c = distributor
  /\ querierAddress c = querier
  /\ rulerAddress c = ruler
  /\ orgID c = tenant
  /\ timeout c = 5000000000
  /\ endpoint (api_client (querierClient c))
     = "http://" +:+ querier +:+ "/api/prom"
  /\ Transport.orgID (Transport (client (api_client (querierClient c))))
     = tenant
  /\ (alertmanagerClient c = None <-> alertmanager = "")
  /\ (forall am : promapi_Client,
         alertmanagerClient c = Some am ->
         endpoint am = "http://" +:+ alertmanager
         /\ Transport.orgID (Transport (client am)) = tenant).
Proof.
  intros Hnew.
  destruct (NewClient_shape _ _ _ _ _ _ Hnew)
    as (Hd & Hq & Hr & Ho & Ht & Hep & Hqo & Hnone & Hsome).
  do 7 (split; [assumption|]).
  destruct (decide (alertmanager = "")) as [Heq|Hne].
  - rewrite (Hnone Heq). split; [easy|]. intros am Habs. discriminate Habs.
  - destruct (Hsome Hne) as (am' & Ham & Hend & Horg). rewrite Ham. split.
    + split; [discriminate|contradiction].
    + intros am [= <-]. easy.
Qed.

End Construction.

(** ** Every operation, every environment *)

Ltac open_ops :=
  unfold Push, Query, QueryRaw, LabelValues, LabelNames, GetRuleGroups,
    SetRuleGroup, DeleteRuleGroup, GetAlertmanagerConfig,
    SetAlertmanagerConfig, DeleteAlertmanagerConfig,
    http_NewRequest, http_NewRequestWithContext.

Section EveryRun.
Context `{pkgs : Packages}.

(** The events of an operation are none, or those of the one exchange of
    its HTTP client. *)
Lemma Push_shape (c : Client) (timeseries : list prompb_TimeSeries)
    (env : Env) :
  trace env (Push c timeseries) = []
  \/ exists data : bytes,
       trace env (Push c timeseries)
       = trace env (http_Client_Do (httpClient c) (pushRequest c data)).
Proof.
  destruct (proto_Marshal {| Timeseries := timeseries |}) as [data|e] eqn:Hm;
    [|left; unfold Push; now rewrite Hm].
  destruct (url_Parse ("http://" +:+ distributorAddress c +:+ "/api/prom/push"))
    as [e|] eqn:Hu;
    [left; unfold Push; open_request; now rewrite Hm, Hu|].
  right. exists data. apply (Push_run c timeseries data env Hm Hu).
Qed.

Lemma QueryRaw_shape (c : Client) (query : string) (env : Env) :
  trace env (QueryRaw c query) = []
  \/ trace env (QueryRaw c query)
     = trace env (http_Client_Do (httpClient c) (queryRawRequest c query)).
Proof.
  destruct (url_Parse (URL (queryRawRequest c query))) as [e|] eqn:Hu.
  - left. cbn [URL queryRawRequest] in Hu.
    unfold QueryRaw. open_request. now rewrite Hu.
  - right. apply (QueryRaw_run c query env Hu).
Qed.

Lemma GetRuleGroups_shape (c : Client) (env : Env) :
  trace env (GetRuleGroups c) = []
  \/ trace env (GetRuleGroups c)
     = trace env (http_Client_Do (httpClient c) (getRuleGroupsRequest c)).
Proof.
  destruct (url_Parse (URL (getRuleGroupsRequest c))) as [e|] eqn:Hu.
  - left. cbn [URL getRuleGroupsRequest] in Hu.
    unfold GetRuleGroups. open_request. now rewrite Hu.
  - right. apply (GetRuleGroups_run c env Hu).
Qed.

Lemma SetRuleGroup_shape (c : Client) (rulegroup : rulefmt_RuleGroup)
    (namespace : string) (env : Env) :
  trace env (SetRuleGroup c rulegroup namespace) = []
  \/ exists data : bytes,
       trace env (SetRuleGroup c rulegroup namespace)
       = trace env (http_Client_Do (httpClient c)
                      (setRuleGroupRequest c data namespace)).
Proof.
  destruct (yaml_Marshal_RuleGroup rulegroup) as [data|e] eqn:Hm;
    [|left; unfold SetRuleGroup; now rewrite Hm].
  destruct (url_Parse (URL (setRuleGroupRequest c data namespace)))
    as [e|] eqn:Hu.
  - left. cbn [URL setRuleGroupRequest] in Hu.
    unfold SetRuleGroup. open_request. now rewrite Hm, Hu.
  - right. exists data.
    apply (SetRuleGroup_run c rulegroup namespace data env Hm Hu).
Qed.

Lemma DeleteRuleGroup_shape (c : Client) (namespace groupName : string)
    (env : Env) :
  trace env (DeleteRuleGroup c namespace groupName) = []
  \/ trace env (DeleteRuleGroup c namespace groupName)
     = trace env (http_Client_Do (httpClient c)
                    (deleteRuleGroupRequest c namespace groupName)).
Proof.
  destruct (url_Parse (URL (deleteRuleGroupRequest c namespace groupName)))
    as [e|] eqn:Hu.
  - left. cbn [URL deleteRuleGroupRequest] in Hu.
    unfold DeleteRuleGroup. open_request. now rewrite Hu.
  - right. apply (DeleteRuleGroup_run c namespace groupName env Hu).
Qed.

Lemma alertmanager_shape (c : Client) (cx : Context) (amConfig : string)
    (templates : gmap string string) (env : Env) :
  (trace env (GetAlertmanagerConfig c cx) = []
   \/ exists (am : promapi_Client) (req : Request),
        alertmanagerClient c = Some am
        /\ trace env (GetAlertmanagerConfig c cx)
           = trace env (http_Client_Do (client am) req))
  /\ (trace env (SetAlertmanagerConfig c cx amConfig templates) = []
      \/ exists (am : promapi_Client) (req : Request),
           alertmanagerClient c = Some am
           /\ trace env (SetAlertmanagerConfig c cx amConfig templates)
              = trace env (http_Client_Do (client am) req))
  /\ (trace env (DeleteAlertmanagerConfig c cx) = []
      \/ exists (am : promapi_Client) (req : Request),
           alertmanagerClient c = Some am
           /\ trace env (DeleteAlertmanagerConfig c cx)
              = trace env (http_Client_Do (client am) req)).
Proof.
  destruct (alertmanagerClient c) as [am|] eqn:Ham;
    [|repeat split; left; open_ops; now rewrite Ham].
  split; [|split].
  - destruct (url_Parse (promapi_URL am "/api/prom/api/v1/status"))
      as [e|] eqn:Hu;
      [left; open_ops; now rewrite Ham, Hu|].
    right. exists am. eexists. split; [reflexivity|].
    destruct (GetAlertmanagerConfig_run c am cx env Ham Hu) as [_ ->].
    apply promapi_Do_run.
  - destruct (yaml_Marshal_userConfig
                {| TemplateFiles := templates;
                   AlertmanagerConfig := amConfig |}) as [data|e] eqn:Hm;
      [|left; open_ops; now rewrite Ham, Hm].
    destruct (url_Parse (promapi_URL am "/api/v1/alerts")) as [e|] eqn:Hu;
      [left; open_ops; now rewrite Ham, Hm, Hu|].
    right. exists am. eexists. split; [reflexivity|].
    destruct (SetAlertmanagerConfig_run c am cx amConfig templates data env
                Ham Hm Hu) as [_ ->].
    apply promapi_Do_run.
  - destruct (url_Parse (promapi_URL am "/api/v1/alerts")) as [e|] eqn:Hu;
      [left; open_ops; now rewrite Ham, Hu|].
    right. exists am. eexists. split; [reflexivity|].
    destruct (DeleteAlertmanagerConfig_run c am cx env Ham Hu) as [_ ->].
    apply promapi_Do_run.
Qed.

(** X6. A failed marshal ends the call before anything is sent: [Push],
    [SetRuleGroup] and (with an alertmanager client) [SetAlertmanagerConfig]
    return the marshaller's error as it is, and make no request. *)
Theorem marshal_failure_sends_nothing (c : Client) (am : promapi_Client)
    (e : error) (timeseries : list prompb_TimeSeries)
    (rulegroup : rulefmt_RuleGroup) (namespace : string) (cx : Context)
    (amConfig : string) (templates : gmap string string) :
  (proto_Marshal {| Timeseries := timeseries |} = Err e ->
   Push c timeseries = Ret (None, Some e))
  /\ (yaml_Marshal_RuleGroup rulegroup = Err e ->
      SetRuleGroup c rulegroup namespace = Ret (Some e))
  /\ (alertmanagerClient c = Some am ->
      yaml_Marshal_userConfig {| TemplateFiles := templates;
                                 AlertmanagerConfig := amConfig |} = Err e ->
      SetAlertmanagerConfig c cx amConfig templates = Ret (Some e)).
Proof.
  repeat split; open_ops.
  - now intros ->.
  - now intros ->.
  - now intros -> ->.
Qed.

(** X7. A URL that does not parse ends [Push], [QueryRaw], [GetRuleGroups],
    [SetRuleGroup] and [DeleteRuleGroup] before anything is sent, with the
    parser's error as it is.  The distributor and ruler addresses are first
    parsed here, at the call. *)
Theorem bad_url_sends_nothing (c : Client) (e : error)
    (timeseries : list prompb_TimeSeries) (data : bytes) (query : string)
    (rulegroup : rulefmt_RuleGroup) (namespace groupName : string) :
  (proto_Marshal {| Timeseries := timeseries |} = Ok data ->
   url_Parse ("http://" +:+ distributorAddress c +:+ "/api/prom/push")
   = Some e ->
   Push c timeseries = Ret (None, Some e))
  /\ (url_Parse ("http://" +:+ querierAddress c
                 +:+ "/api/prom/api/v1/query?query="
                 +:+ URL.QueryEscape query) = Some e ->
      QueryRaw c query = Ret (None, "", Some e))
  /\ (url_Parse ("http://" +:+ rulerAddress c +:+ "/api/prom/rules")
      = Some e ->
      GetRuleGroups c = Ret (None, Some e))
  /\ (yaml_Marshal_RuleGroup rulegroup = Ok data ->
      url_Parse ("http://" +:+ rulerAddress c +:+ "/api/prom/rules/"
                 +:+ URL.PathEscape namespace) = Some e ->
      SetRuleGroup c rulegroup namespace = Ret (Some e))
  /\ (url_Parse ("http://" +:+ rulerAddress c +:+ "/api/prom/rules/"
                 +:+ URL.PathEscape namespace +:+ "/"
                 +:+ URL.PathEscape groupName) = Some e ->
      DeleteRuleGroup c namespace groupName = Ret (Some e)).
Proof.
  repeat split; open_ops.
  - now intros -> ->.
  - now intros ->.
  - now intros ->.
  - now intros -> ->.
  - now intros ->.
Qed.

Lemma Do_scoped (cl : http_Client Transport.Default) (req : Request)
    (tenant : string) (env : Env) :
  Header_Values (Header req) "X-Scope-OrgID" = [tenant] ->
  Forall (tenantScoped tenant) (trace env (http_Client_Do cl req)).
Proof.
  intros Hreq. unfold http_Client_Do.
  apply (do_hops_Forall (Transport cl) (fun r => r) (Default_sends _));
    [|exact Hreq].
  intros m u prev b. cbn. now rewrite redirectHeader_tenant.
Qed.

Lemma Do_scoped_by_transport
    (cl : http_Client (addOrgIDRoundTripper Transport.Default))
    (req : Request) (env : Env) :
  Forall (tenantScoped (Transport.orgID (Transport cl)))
    (trace env (http_Client_Do cl req)).
Proof.
  unfold http_Client_Do.
  apply (do_hops_Forall (Transport cl) _ (addOrgID_sends _)).
  - intros m u prev b. cbn. apply Header_Values_Set.
  - cbn. apply Header_Values_Set.
Qed.

Lemma Do_length {T : Type} `{RoundTripper T} (tr : T)
    (f : Request -> Request) (req : Request) (env : Env) :
  (forall r : Request, RoundTrip tr r = trigger (NetRoundTrip (f r))) ->
  (length (trace env (http_Client_Do {| Transport := tr |} req)) <= 10)%nat.
Proof.
  intros Hsends. unfold http_Client_Do.
  apply (do_hops_length tr f Hsends).
Qed.

(** X3. For a client built by [NewClient], every request that reaches the
    network, from any operation and in any run, names the client's tenant,
    and only it, in [X-Scope-OrgID]; every call into the Prometheus API
    client goes through the round tripper of that tenant. *)
Theorem every_exchange_tenant_scoped
    (distributor querier alertmanager ruler tenant : string) (c : Client)
    (env : Env) (timeseries : list prompb_TimeSeries) (query label : string)
    (ts : Time) (rulegroup : rulefmt_RuleGroup) (namespace groupName : string)
    (cx : Context) (amConfig : string) (templates : gmap string string) :
  NewClient distributor querier alertmanager ruler tenant = Ok c ->
  Forall (tenantScoped tenant) (trace env (Push c timeseries))
  /\ Forall (tenantScoped tenant) (trace env (Query c query ts))
  /\ Forall (tenantScoped tenant) (trace env (QueryRaw c query))
  /\ Forall (tenantScoped tenant) (trace env (LabelValues c label))
  /\ Forall (tenantScoped tenant) (trace env (LabelNames c))
  /\ Forall (tenantScoped tenant) (trace env (GetRuleGroups c))
  /\ Forall (tenantScoped tenant)
       (trace env (SetRuleGroup c rulegroup namespace))
  /\ Forall (tenantScoped tenant)
       (trace env (DeleteRuleGroup c namespace groupName))
  /\ Forall (tenantScoped tenant) (trace env (GetAlertmanagerConfig c cx))
  /\ Forall (tenantScoped tenant)
       (trace env (SetAlertmanagerConfig c cx amConfig templates))
  /\ Forall (tenantScoped tenant) (trace env (DeleteAlertmanagerConfig c cx)).
Proof.
  intros Hnew.
  destruct (NewClient_shape _ _ _ _ _ _ Hnew)
    as (_ & _ & _ & Ho & _ & _ & Hqo & Hnone & Hsome).
  assert (Hdo : forall req : Request,
             Header_Values (Header req) "X-Scope-OrgID" = [orgID c] ->
             Forall (tenantScoped tenant)
               (trace env (http_Client_Do (httpClient c) req))).
  { intros req Hreq. apply Do_scoped. now rewrite <- Ho. }
  assert (Ham : forall (am : promapi_Client) (req : Request),
             alertmanagerClient c = Some am ->
             Forall (tenantScoped tenant)
               (trace env (http_Client_Do (client am) req))).
  { intros am req Ham.
    destruct (decide (alertmanager = "")) as [Heq|Hne].
    - rewrite (Hnone Heq) in Ham. discriminate.
    - destruct (Hsome Hne) as (am' & Ham' & _ & Horg).
      rewrite Ham' in Ham. injection Ham as <-.
      rewrite <- Horg. apply Do_scoped_by_transport. }
  destruct (alertmanager_shape c cx amConfig templates env)
    as (HG & HS & HD).
  repeat split.
  - destruct (Push_shape c timeseries env) as [ -> | [data -> ] ];
      [constructor|now apply Hdo].
  - open_ops. cbn. destruct (env _) as [[? ?] ?]. repeat constructor.
    exact Hqo.
  - destruct (QueryRaw_shape c query env) as [ -> | -> ];
      [constructor|now apply Hdo].
  - open_ops. cbn. destruct (env _) as [[? ?] ?]. repeat constructor.
    exact Hqo.
  - open_ops. cbn. destruct (env _) as [[? ?] ?]. repeat constructor.
    exact Hqo.
  - destruct (GetRuleGroups_shape c env) as [ -> | -> ];
      [constructor|now apply Hdo].
  - destruct (SetRuleGroup_shape c rulegroup namespace env)
      as [ -> | [data -> ] ]; [constructor|now apply Hdo].
  - destruct (DeleteRuleGroup_shape c namespace groupName env) as [ -> | -> ];
      [constructor|now apply Hdo].
  - destruct HG as [ -> | (am & req & Hc & -> ) ]; [constructor|now apply Ham].
  - destruct HS as [ -> | (am & req & Hc & -> ) ]; [constructor|now apply Ham].
  - destruct HD as [ -> | (am & req & Hc & -> ) ]; [constructor|now apply Ham].
Qed.

(** X4. No operation retries.  A call of [Query], [LabelValues] or
    [LabelNames] is at most one call of the API client; a call of any other
    operation is at most one exchange of its HTTP client, and so puts at
    most ten requests on the network: its own, and the redirects that
    [http.Client] follows. *)
Theorem exchanges_bounded (c : Client) (env : Env)
    (timeseries : list prompb_TimeSeries) (query label : string) (ts : Time)
    (rulegroup : rulefmt_RuleGroup) (namespace groupName : string)
    (cx : Context) (amConfig : string) (templates : gmap string string) :
  (length (trace env (Push c timeseries)) <= 10)%nat
  /\ (length (trace env (Query c query ts)) <= 1)%nat
  /\ (length (trace env (QueryRaw c query)) <= 10)%nat
  /\ (length (trace env (LabelValues c label)) <= 1)%nat
  /\ (length (trace env (LabelNames c)) <= 1)%nat
  /\ (length (trace env (GetRuleGroups c)) <= 10)%nat
  /\ (length (trace env (SetRuleGroup c rulegroup namespace)) <= 10)%nat
  /\ (length (trace env (DeleteRuleGroup c namespace groupName)) <= 10)%nat
  /\ (length (trace env (GetAlertmanagerConfig c cx)) <= 10)%nat
  /\ (length (trace env (SetAlertmanagerConfig c cx amConfig templates))
      <= 10)%nat
  /\ (length (trace env (DeleteAlertmanagerConfig c cx)) <= 10)%nat.
Proof.
  assert (Hdo : forall req : Request,
             (length (trace env (http_Client_Do (httpClient c) req))
              <= 10)%nat).
  { intros req. destruct (httpClient c) as [tr].
    apply (Do_length tr (fun r => r)), Default_sends. }
  assert (Ham : forall (am : promapi_Client) (req : Request),
             (length (trace env (http_Client_Do (client am) req))
              <= 10)%nat).
  { intros am req. destruct (client am) as [tr].
    apply (Do_length tr _ req env (addOrgID_sends tr)). }
  destruct (alertmanager_shape c cx amConfig templates env)
    as (HG & HS & HD).
  repeat split.
  - destruct (Push_shape c timeseries env) as [ -> | [data -> ] ];
      [cbn; lia|apply Hdo].
  - open_ops. cbn. destruct (env _) as [[? ?] ?]. cbn. lia.
  - destruct (QueryRaw_shape c query env) as [ -> | -> ]; [cbn; lia|apply Hdo].
  - open_ops. cbn. destruct (env _) as [[? ?] ?]. cbn. lia.
  - open_ops. cbn. destruct (env _) as [[? ?] ?]. cbn. lia.
  - destruct (GetRuleGroups_shape c env) as [ -> | -> ]; [cbn; lia|apply Hdo].
  - destruct (SetRuleGroup_shape c rulegroup namespace env)
      as [ -> | [data -> ] ]; [cbn; lia|apply Hdo].
  - destruct (DeleteRuleGroup_shape c namespace groupName env) as [ -> | -> ];
      [cbn; lia|apply Hdo].
  - destruct HG as [ -> | (am & req & _ & -> ) ]; [cbn; lia|apply Ham].
  - destruct HS as [ -> | (am & req & _ & -> ) ]; [cbn; lia|apply Ham].
  - destruct HD as [ -> | (am & req & _ & -> ) ]; [cbn; lia|apply Ham].
Qed.

(** X5. A failure of the transport on the request of [Push], [QueryRaw],
    [GetRuleGroups], [SetRuleGroup] or [DeleteRuleGroup] comes back as the
    error of the call, wrapped by [http.Client] in a [*url.Error] that
    names the method and the URL of the request, with no response, body or
    value beside it. *)
Theorem transport_errors_surface (c : Client) (env : Env) (e : error)
    (timeseries : list prompb_TimeSeries) (data : bytes) (query : string)
    (rulegroup : rulefmt_RuleGroup) (namespace groupName : string) :
  (proto_Marshal {| Timeseries := timeseries |} = Ok data ->
   url_Parse (URL (pushRequest c data)) = None ->
   env (NetRoundTrip (pushRequest c data)) = Err e ->
   run env (Push c timeseries)
   = Returned (None,
               Some (url_Error "Post"
                       (http_stripPassword (URL (pushRequest c data))) e)))
  /\ (url_Parse (URL (queryRawRequest c query)) = None ->
      env (NetRoundTrip (queryRawRequest c query)) = Err e ->
      run env (QueryRaw c query)
      = Returned (None, "",
                  Some (url_Error "Get"
                          (http_stripPassword (URL (queryRawRequest c query)))
                          e)))
  /\ (url_Parse (URL (getRuleGroupsRequest c)) = None ->
      env (NetRoundTrip (getRuleGroupsRequest c)) = Err e ->
      run env (GetRuleGroups c)
      = Returned (None,
                  Some (url_Error "Get"
                          (http_stripPassword (URL (getRuleGroupsRequest c)))
                          e)))
  /\ (yaml_Marshal_RuleGroup rulegroup = Ok data ->
      url_Parse (URL (setRuleGroupRequest c data namespace)) = None ->
      env (NetRoundTrip (setRuleGroupRequest c data namespace)) = Err e ->
      run env (SetRuleGroup c rulegroup namespace)
      = Returned (Some (url_Error "Post"
                          (http_stripPassword
                             (URL (setRuleGroupRequest c data namespace)))
                          e)))
  /\ (url_Parse (URL (deleteRuleGroupRequest c namespace groupName)) = None ->
      env (NetRoundTrip (deleteRuleGroupRequest c namespace groupName))
      = Err e ->
      run env (DeleteRuleGroup c namespace groupName)
      = Returned (Some (url_Error "Delete"
                          (http_stripPassword
                             (URL (deleteRuleGroupRequest c namespace
                                     groupName)))
                          e))).
Proof.
  repeat split.
  - intros Hm Hu Herr.
    destruct (Push_run c timeseries data env Hm Hu) as [-> _].
    now destruct (Do_failed (httpClient c) _ env e Herr) as [-> _].
  - intros Hu Herr. destruct (QueryRaw_run c query env Hu) as [-> _].
    now destruct (Do_failed (httpClient c) _ env e Herr) as [-> _].
  - intros Hu Herr. destruct (GetRuleGroups_run c env Hu) as [-> _].
    now destruct (Do_failed (httpClient c) _ env e Herr) as [-> _].
  - intros Hm Hu Herr.
    destruct (SetRuleGroup_run c rulegroup namespace data env Hm Hu)
      as [-> _].
    now destruct (Do_failed (httpClient c) _ env e Herr) as [-> _].
  - intros Hu Herr.
    destruct (DeleteRuleGroup_run c namespace groupName env Hu) as [-> _].
    now destruct (Do_failed (httpClient c) _ env e Herr) as [-> _].
Qed.

(** X8. When [http.Client.Do] hands an alertmanager operation a response
    whose body cannot be read to its end, the operation returns the read
    error, whatever the status of the response: neither 404 nor the success
    status is looked at. *)
Theorem alertmanager_read_failure (c : Client) (am : promapi_Client)
    (env : Env) (resp : Response) (e : error) (cx : Context)
    (amConfig : string) (templates : gmap string string) (data : bytes) :
  alertmanagerClient c = Some am ->
  closed (RespBody resp) = false ->
  fault (RespBody resp) = Some e ->
  (url_Parse (promapi_URL am "/api/prom/api/v1/status") = None ->
   run env (http_Client_Do (client am)
              (alertmanagerRequest am cx "GET" "/api/prom/api/v1/status"
                 None)) = Returned (Ok resp) ->
   run env (GetAlertmanagerConfig c cx) = Returned (None, Some e))
  /\ (yaml_Marshal_userConfig {| TemplateFiles := templates;
                                 AlertmanagerConfig := amConfig |} = Ok data ->
      url_Parse (promapi_URL am "/api/v1/alerts") = None ->
      run env (http_Client_Do (client am)
                 (alertmanagerRequest am cx "POST" "/api/v1/alerts"
                    (Some data))) = Returned (Ok resp) ->
      run env (SetAlertmanagerConfig c cx amConfig templates)
      = Returned (Some e))
  /\ (url_Parse (promapi_URL am "/api/v1/alerts") = None ->
      run env (http_Client_Do (client am)
                 (alertmanagerRequest am cx "DELETE" "/api/v1/alerts" None))
      = Returned (Ok resp) ->
      run env (DeleteAlertmanagerConfig c cx) = Returned (Some e)).
Proof.
  intros Ham Hclosed Hfault.
  assert (Hread : ReadAll (RespBody resp)
                  = (content (RespBody resp), Some e,
                     {| content := ""; fault := Some e; closed := false;
                        noBody := noBody (RespBody resp) |})).
  { unfold ReadAll. now rewrite Hclosed, Hfault. }
  repeat split.
  - intros Hu Hdo.
    destruct (GetAlertmanagerConfig_run c am cx env Ham Hu) as [-> _].
    destruct (promapi_Do_run am cx
                (alertmanagerRequest am Background "GET"
                   "/api/prom/api/v1/status" None) env) as [-> _].
    change (WithContext _ cx)
      with (alertmanagerRequest am cx "GET" "/api/prom/api/v1/status" None).
    now rewrite Hdo, Hread.
  - intros Hm Hu Hdo.
    destruct (SetAlertmanagerConfig_run c am cx amConfig templates data env
                Ham Hm Hu) as [-> _].
    destruct (promapi_Do_run am cx
                (alertmanagerRequest am Background "POST" "/api/v1/alerts"
                   (Some data)) env) as [-> _].
    change (WithContext _ cx)
      with (alertmanagerRequest am cx "POST" "/api/v1/alerts" (Some data)).
    now rewrite Hdo, Hread.
  - intros Hu Hdo.
    destruct (DeleteAlertmanagerConfig_run c am cx env Ham Hu) as [-> _].
    destruct (promapi_Do_run am cx
                (alertmanagerRequest am Background "DELETE" "/api/v1/alerts"
                   None) env) as [-> _].
    change (WithContext _ cx)
      with (alertmanagerRequest am cx "DELETE" "/api/v1/alerts" None).
    now rewrite Hdo, Hread.
Qed.

Lemma Do_returns_scoped
    (cl : http_Client (addOrgIDRoundTripper Transport.Default))
    (req : Request) (env : Env) :
  exists r : Result Response, run env (http_Client_Do cl req) = Returned r.
Proof.
  unfold http_Client_Do.
  apply (do_hops_returns (Transport cl) _ (addOrgID_sends _)).
Qed.

(** X10. With an alertmanager client, [SetAlertmanagerConfig] and
    [DeleteAlertmanagerConfig] never panic, and [GetAlertmanagerConfig]
    panics in one case only: a response of a status other than 404, handed
    over by [http.Client.Do] and read without error, whose body the JSON
    decoder accepts while leaving the envelope pointer nil.  Otherwise it
    returns an error with no configuration, or a configuration. *)
Theorem alertmanager_outcomes (c : Client) (am : promapi_Client) (env : Env)
    (cx : Context) (amConfig : string) (templates : gmap string string) :
  alertmanagerClient c = Some am ->
  (exists r, run env (SetAlertmanagerConfig c cx amConfig templates)
             = Returned r)
  /\ (exists r, run env (DeleteAlertmanagerConfig c cx) = Returned r)
  /\ ((exists e, run env (GetAlertmanagerConfig c cx)
                 = Returned (None, Some e))
      \/ (exists cfg err, run env (GetAlertmanagerConfig c cx)
                          = Returned (Some cfg, err))
      \/ (run env (GetAlertmanagerConfig c cx) = Panicked nilDereference
          /\ exists resp,
               run env (http_Client_Do (client am)
                          (alertmanagerRequest am cx "GET"
                             "/api/prom/api/v1/status" None))
               = Returned (Ok resp)
               /\ StatusCode resp <> 404
               /\ (ReadAll (RespBody resp)).1.2 = None
               /\ json_Unmarshal_ServerStatus (ReadAll (RespBody resp)).1.1
                  = Ok None)).
Proof.
  intros Ham. split; [|split].
  - destruct (yaml_Marshal_userConfig
                {| TemplateFiles := templates;
                   AlertmanagerConfig := amConfig |}) as [data|e] eqn:Hm;
      [|open_ops; rewrite Ham, Hm; cbn; eauto].
    destruct (url_Parse (promapi_URL am "/api/v1/alerts")) as [e|] eqn:Hu;
      [open_ops; rewrite Ham, Hm, Hu; cbn; eauto|].
    destruct (SetAlertmanagerConfig_run c am cx amConfig templates data env
                Ham Hm Hu) as [-> _].
    destruct (promapi_Do_run am cx
                (alertmanagerRequest am Background "POST" "/api/v1/alerts"
                   (Some data)) env) as [-> _].
    destruct (Do_returns_scoped (client am)
                (WithContext
                   (alertmanagerRequest am Background "POST" "/api/v1/alerts"
                      (Some data)) cx) env) as [[resp|e] ->]; [|eauto].
    destruct (ReadAll _) as [[body [e|]] b]; [eauto|].
    unfold byStatus. repeat (destruct (decide _)); eauto.
  - destruct (url_Parse (promapi_URL am "/api/v1/alerts")) as [e|] eqn:Hu;
      [open_ops; rewrite Ham, Hu; cbn; eauto|].
    destruct (DeleteAlertmanagerConfig_run c am cx env Ham Hu) as [-> _].
    destruct (promapi_Do_run am cx
                (alertmanagerRequest am Background "DELETE" "/api/v1/alerts"
                   None) env) as [-> _].
    destruct (Do_returns_scoped (client am)
                (WithContext
                   (alertmanagerRequest am Background "DELETE"
                      "/api/v1/alerts" None) cx) env) as [[resp|e] ->];
      [|eauto].
    destruct (ReadAll _) as [[body [e|]] b]; [eauto|].
    unfold byStatus. repeat (destruct (decide _)); eauto.
  - destruct (url_Parse (promapi_URL am "/api/prom/api/v1/status"))
      as [e|] eqn:Hu;
      [open_ops; rewrite Ham, Hu; cbn; eauto|].
    destruct (GetAlertmanagerConfig_run c am cx env Ham Hu) as [-> _].
    destruct (promapi_Do_run am cx
                (alertmanagerRequest am Background "GET"
                   "/api/prom/api/v1/status" None) env) as [-> _].
    change (WithContext _ cx)
      with (alertmanagerRequest am cx "GET" "/api/prom/api/v1/status" None).
    destruct (Do_returns_scoped (client am)
                (alertmanagerRequest am cx "GET" "/api/prom/api/v1/status"
                   None) env) as [[resp|e] Hdo]; rewrite Hdo; [|eauto].
    destruct (ReadAll (RespBody resp)) as [[body [e|]] b] eqn:Hread;
      [eauto|].
    destruct (decide _) as [|Hstatus]; [eauto|].
    unfold decodeStatusBody.
    destruct (json_Unmarshal_ServerStatus body) as [[ss|]|e] eqn:Hjson;
      [eauto| |eauto].
    right. right. split; [reflexivity|].
    exists resp. rewrite Hread. cbn. repeat split; assumption.
Qed.

End EveryRun.

(** ** Raw queries and rule groups on the wire *)

Section OnTheWire.
Context `{pkgs : Packages}.

Lemma Do_head_scoped
    (cl : http_Client (addOrgIDRoundTripper Transport.Default))
    (req : Request) (env : Env) :
  exists rest : list Event,
    trace env (http_Client_Do cl req)
    = NetRoundTrip
        (Request_withHeader req
           (Header_Set (Header req) "X-Scope-OrgID"
              (Transport.orgID (Transport cl)))) :: rest.
Proof.
  unfold http_Client_Do.
  apply (do_hops_head (Transport cl) _ (addOrgID_sends _)).
Qed.


(** X12. [QueryRaw] does not look at the status: a response that
    [http.Client.Do] hands over and whose body is read in full comes back
    with its status as it is, the bytes of the body beside it, a nil error,
    and its own body drained and closed; a response whose body cannot be
    read to its end is dropped, and the read error is returned alone. *)
Theorem QueryRaw_response (c : Client) (query : string) (env : Env)
    (res : Response) :
  url_Parse ("http://" +:+ querierAddress c
             +:+ "/api/prom/api/v1/query?query=" +:+ URL.QueryEscape query)
  = None ->
  run env (http_Client_Do (httpClient c) (queryRawRequest c query))
  = Returned (Ok res) ->
  closed (RespBody res) = false ->
  (fault (RespBody res) = None ->
   run env (QueryRaw c query)
   = Returned (Some {| StatusCode := StatusCode res;
                       RespHeader := RespHeader res;
                       RespBody := {| content := ""; fault := None;
                                      closed := true;
                                      noBody := noBody (RespBody res) |} |},
               content (RespBody res), None))
  /\ (forall e : error,
         fault (RespBody res) = Some e ->
         run env (QueryRaw c query) = Returned (None, "", Some e)).
Proof.
  intros Hurl Hdo Hclosed.
  destruct (QueryRaw_run c query env Hurl) as [-> _].
  rewrite Hdo. unfold ReadAll. rewrite Hclosed. cbn [andb].
  split.
  - intros ->. reflexivity.
  - intros e ->. reflexivity.
Qed.

(** X13. When their URLs parse (and the rule group marshals), the three
    rule operations each begin by sending one request to the ruler under
    the client's timeout: [GetRuleGroups] a GET of [/api/prom/rules]
    without a body, carrying the tenant header only; [SetRuleGroup] a POST
    whose body is the marshalled rule group; [DeleteRuleGroup] a DELETE
    without a body; both writes carry Content-Type: application/yaml and
    the tenant header, and nothing else. *)
Theorem rule_requests (c : Client) (rulegroup : rulefmt_RuleGroup)
    (namespace groupName : string) (data : bytes) (env : Env) :
  url_Parse ("http://" +:+ rulerAddress c +:+ "/api/prom/rules") = None ->
  yaml_Marshal_RuleGroup rulegroup = Ok data ->
  url_Parse ("http://" +:+ rulerAddress c +:+ "/api/prom/rules/"
             +:+ URL.PathEscape namespace) = None ->
  url_Parse ("http://" +:+ rulerAddress c +:+ "/api/prom/rules/"
             +:+ URL.PathEscape namespace +:+ "/"
             +:+ URL.PathEscape groupName) = None ->
  (exists rest : list Event,
      trace env (GetRuleGroups c)
      = NetRoundTrip
          {| Method := "GET";
             URL := "http://" +:+ rulerAddress c +:+ "/api/prom/rules";
             Header := <["X-Scope-Orgid" := [orgID c]]> ∅;
             Body := None;
             ctx := WithTimeout Background (timeout c) |} :: rest)
  /\ (exists rest : list Event,
      trace env (SetRuleGroup c rulegroup namespace)
      = NetRoundTrip
          {| Method := "POST";
             URL := "http://" +:+ rulerAddress c +:+ "/api/prom/rules/"
                    +:+ URL.PathEscape namespace;
             Header := <["X-Scope-Orgid" := [orgID c]]>
                         (<["Content-Type" := ["application/yaml"]]> ∅);
             Body := Some data;
             ctx := WithTimeout Background (timeout c) |} :: rest)
  /\ (exists rest : list Event,
      trace env (DeleteRuleGroup c namespace groupName)
      = NetRoundTrip
          {| Method := "DELETE";
             URL := "http://" +:+ rulerAddress c +:+ "/api/prom/rules/"
                    +:+ URL.PathEscape namespace +:+ "/"
                    +:+ URL.PathEscape groupName;
             Header := <["X-Scope-Orgid" := [orgID c]]>
                         (<["Content-Type" := ["application/yaml"]]> ∅);
             Body := None;
             ctx := WithTimeout Background (timeout c) |} :: rest).
Proof.
  intros Hget Hm Hset Hdel.
  destruct (GetRuleGroups_run c env Hget) as [_ ->].
  destruct (SetRuleGroup_run c rulegroup namespace data env Hm Hset)
    as [_ ->].
  destruct (DeleteRuleGroup_run c namespace groupName env Hdel) as [_ ->].
  repeat split; apply Do_head.
Qed.

(** X14. [GetRuleGroups] does not look at the status.  Of a response that
    [http.Client.Do] hands over and whose body is read in full it returns
    what the YAML decoder makes of the body, starting from an empty map:
    the decoded map with a nil error, or the decoder's error with no map;
    if the body cannot be read to its end it returns the read error. *)
Theorem GetRuleGroups_response (c : Client) (env : Env) (res : Response) :
  url_Parse ("http://" +:+ rulerAddress c +:+ "/api/prom/rules") = None ->
  run env (http_Client_Do (httpClient c) (getRuleGroupsRequest c))
  = Returned (Ok res) ->
  closed (RespBody res) = false ->
  (forall e : error,
      fault (RespBody res) = Some e ->
      run env (GetRuleGroups c) = Returned (None, Some e))
  /\ (forall rgs : gmap string (list rulefmt_RuleGroup),
         fault (RespBody res) = None ->
         yaml_Unmarshal_RuleGroups (content (RespBody res)) ∅ = (rgs, None) ->
         run env (GetRuleGroups c) = Returned (Some rgs, None))
  /\ (forall (rgs : gmap string (list rulefmt_RuleGroup)) (e : error),
         fault (RespBody res) = None ->
         yaml_Unmarshal_RuleGroups (content (RespBody res)) ∅
         = (rgs, Some e) ->
         run env (GetRuleGroups c) = Returned (None, Some e)).
Proof.
  intros Hurl Hdo Hclosed.
  destruct (GetRuleGroups_run c env Hurl) as [-> _].
  rewrite Hdo. unfold ReadAll. rewrite Hclosed. cbn [andb].
  repeat split.
  - intros e ->. reflexivity.
  - intros rgs -> ->. reflexivity.
  - intros rgs e -> ->. reflexivity.
Qed.

(** X15. For a client built by [NewClient] with an alertmanager address,
    when the URLs parse (and the configuration marshals), each alertmanager
    operation begins by sending one request under the caller's context,
    with the tenant header as its only header, to the URL that the
    alertmanager client joins from its endpoint [http://<alertmanager>] and
    the path of the operation: [GetAlertmanagerConfig] a GET of
    [/api/prom/api/v1/status] without a body; [SetAlertmanagerConfig] a
    POST to [/api/v1/alerts] whose body is the marshalled pair of templates
    and configuration; [DeleteAlertmanagerConfig] a DELETE of
    [/api/v1/alerts] without a body. *)
Theorem alertmanager_requests
    (distributor querier alertmanager ruler tenant : string) (c : Client)
    (env : Env) (cx : Context) (amConfig : string)
    (templates : gmap string string) (data : bytes) :
  NewClient distributor querier alertmanager ruler tenant = Ok c ->
  alertmanager <> "" ->
  url_Parse (url_JoinPath ("http://" +:+ alertmanager)
               "/api/prom/api/v1/status") = None ->
  url_Parse (url_JoinPath ("http://" +:+ alertmanager) "/api/v1/alerts")
  = None ->
  yaml_Marshal_userConfig {| TemplateFiles := templates;
                             AlertmanagerConfig := amConfig |} = Ok data ->
  (exists rest : list Event,
      trace env (GetAlertmanagerConfig c cx)
      = NetRoundTrip
          {| Method := "GET";
             URL := url_JoinPath ("http://" +:+ alertmanager)
                      "/api/prom/api/v1/status";
             Header := <["X-Scope-Orgid" := [tenant]]> ∅;
             Body := None;
             ctx := cx |} :: rest)
  /\ (exists rest : list Event,
      trace env (SetAlertmanagerConfig c cx amConfig templates)
      = NetRoundTrip
          {| Method := "POST";
             URL := url_JoinPath ("http://" +:+ alertmanager)
                      "/api/v1/alerts";
             Header := <["X-Scope-Orgid" := [tenant]]> ∅;
             Body := Some data;
             ctx := cx |} :: rest)
  /\ (exists rest : list Event,
      trace env (DeleteAlertmanagerConfig c cx)
      = NetRoundTrip
          {| Method := "DELETE";
             URL := url_JoinPath ("http://" +:+ alertmanager)
                      "/api/v1/alerts";
             Header := <["X-Scope-Orgid" := [tenant]]> ∅;
             Body := None;
             ctx := cx |} :: rest).
Proof.
  intros Hnew Hne Hstatus Halerts Hm.
  destruct (NewClient_shape _ _ _ _ _ _ Hnew)
    as (_ & _ & _ & _ & _ & _ & _ & _ & Hsome).
  destruct (Hsome Hne) as (am & Ham & Hend & Horg).
  assert (Hu1 : url_Parse (promapi_URL am "/api/prom/api/v1/status") = None)
    by (unfold promapi_URL; now rewrite Hend).
  assert (Hu2 : url_Parse (promapi_URL am "/api/v1/alerts") = None)
    by (unfold promapi_URL; now rewrite Hend).
  destruct (GetAlertmanagerConfig_run c am cx env Ham Hu1) as [_ ->].
  destruct (SetAlertmanagerConfig_run c am cx amConfig templates data env
              Ham Hm Hu2) as [_ ->].
  destruct (DeleteAlertmanagerConfig_run c am cx env Ham Hu2) as [_ ->].
  rewrite !(proj2 (promapi_Do_run am cx _ env)).
  rewrite <- Horg, <- Hend.
  repeat split; apply Do_head_scoped.
Qed.

(** A response of a status other than the five redirects is handed over as
    it is. *)
Lemma no_redirect (method : string) (resp : Response) :
  ~ In (StatusCode resp) [301; 302; 303; 307; 308] ->
  (redirectBehavior method resp).1.2 = false.
Proof.
  intros Hno. unfold redirectBehavior.
  destruct (decide _) as [Hr|_]; [exfalso; apply Hno; cbn; lia|].
  destruct (decide _) as [Hr|_]; [exfalso; apply Hno; cbn; lia|].
  reflexivity.
Qed.

Lemma Do_delivered_scoped
    (cl : http_Client (addOrgIDRoundTripper Transport.Default))
    (req : Request) (env : Env) (resp : Response) :
  env (NetRoundTrip
         (Request_withHeader req
            (Header_Set (Header req) "X-Scope-OrgID"
               (Transport.orgID (Transport cl))))) = Ok resp ->
  (redirectBehavior (Method req) resp).1.2 = false ->
  run env (http_Client_Do cl req) = Returned (Ok resp)
  /\ trace env (http_Client_Do cl req)
     = [NetRoundTrip
          (Request_withHeader req
             (Header_Set (Header req) "X-Scope-OrgID"
                (Transport.orgID (Transport cl))))].
Proof.
  unfold http_Client_Do.
  apply (do_hops_delivered (Transport cl) _ (addOrgID_sends _)).
Qed.

(** X9. A set or delete of the alertmanager configuration that the
    alertmanager answers directly makes one round trip and returns by the
    status of the answer.  When the tenant-scoped request is answered with
    a response of a status other than 301, 302, 303, 307 and 308 whose body
    reads in full, that request is the only one sent, and the call returns
    nil for 201 (set) or 200 (delete), [ErrNotFound] for 404, and for every
    other status the formatted error with the status and the body. *)
Theorem alertmanager_direct_answer (c : Client) (am : promapi_Client)
    (cx : Context) (amConfig : string) (templates : gmap string string)
    (data : bytes) (env : Env) (resp : Response) :
  alertmanagerClient c = Some am ->
  url_Parse (promapi_URL am "/api/v1/alerts") = None ->
  ~ In (StatusCode resp) [301; 302; 303; 307; 308] ->
  closed (RespBody resp) = false ->
  fault (RespBody resp) = None ->
  (yaml_Marshal_userConfig {| TemplateFiles := templates;
                              AlertmanagerConfig := amConfig |} = Ok data ->
   env (NetRoundTrip
          {| Method := "POST";
             URL := promapi_URL am "/api/v1/alerts";
             Header := <["X-Scope-Orgid"
                         := [Transport.orgID (Transport (client am))]]> ∅;
             Body := Some data;
             ctx := cx |}) = Ok resp ->
   trace env (SetAlertmanagerConfig c cx amConfig templates)
   = [NetRoundTrip
        {| Method := "POST";
           URL := promapi_URL am "/api/v1/alerts";
           Header := <["X-Scope-Orgid"
                       := [Transport.orgID (Transport (client am))]]> ∅;
           Body := Some data;
           ctx := cx |}]
   /\ run env (SetAlertmanagerConfig c cx amConfig templates)
      = byStatus StatusCreated "setting" (StatusCode resp)
          (content (RespBody resp)))
  /\ (env (NetRoundTrip
             {| Method := "DELETE";
                URL := promapi_URL am "/api/v1/alerts";
                Header := <["X-Scope-Orgid"
                            := [Transport.orgID (Transport (client am))]]> ∅;
                Body := None;
                ctx := cx |}) = Ok resp ->
      trace env (DeleteAlertmanagerConfig c cx)
      = [NetRoundTrip
           {| Method := "DELETE";
              URL := promapi_URL am "/api/v1/alerts";
              Header := <["X-Scope-Orgid"
                          := [Transport.orgID (Transport (client am))]]> ∅;
              Body := None;
              ctx := cx |}]
      /\ run env (DeleteAlertmanagerConfig c cx)
         = byStatus StatusOK "deleting" (StatusCode resp)
             (content (RespBody resp))).
Proof.
  intros Ham Hu Hno Hclosed Hfault. split.
  - intros Hm Hresp.
    destruct (SetAlertmanagerConfig_run c am cx amConfig templates data env
                Ham Hm Hu) as [-> ->].
    destruct (promapi_Do_run am cx
                (alertmanagerRequest am Background "POST" "/api/v1/alerts"
                   (Some data)) env) as [-> ->].
    destruct (Do_delivered_scoped (client am)
                (WithContext
                   (alertmanagerRequest am Background "POST" "/api/v1/alerts"
                      (Some data)) cx)
                env resp Hresp (no_redirect _ _ Hno)) as [-> ->].
    unfold ReadAll. rewrite Hclosed, Hfault. cbn [andb]. split; reflexivity.
  - intros Hresp.
    destruct (DeleteAlertmanagerConfig_run c am cx env Ham Hu) as [-> ->].
    destruct (promapi_Do_run am cx
                (alertmanagerRequest am Background "DELETE" "/api/v1/alerts"
                   None) env) as [-> ->].
    destruct (Do_delivered_scoped (client am)
                (WithContext
                   (alertmanagerRequest am Background "DELETE"
                      "/api/v1/alerts" None) cx)
                env resp Hresp (no_redirect _ _ Hno)) as [-> ->].
    unfold ReadAll. rewrite Hclosed, Hfault. cbn [andb]. split; reflexivity.
Qed.

(** X18. [Push] neither looks at the status nor reads the body: a response
    that [http.Client.Do] hands over comes back with its status and headers
    as they are and a nil error, and with its body closed by the deferred
    [Body.Close], unread. *)
Theorem Push_response (c : Client) (timeseries : list prompb_TimeSeries)
    (data : bytes) (env : Env) (res : Response) :
  proto_Marshal {| Timeseries := timeseries |} = Ok data ->
  url_Parse ("http://" +:+ distributorAddress c +:+ "/api/prom/push") = None ->
  run env (http_Client_Do (httpClient c) (pushRequest c data))
  = Returned (Ok res) ->
  run env (Push c timeseries)
  = Returned (Some {| StatusCode := StatusCode res;
                      RespHeader := RespHeader res;
                      RespBody := {| content := content (RespBody res);
                                     fault := fault (RespBody res);
                                     closed := true;
                                     noBody := noBody (RespBody res) |} |},
              None).
Proof.
  intros Hm Hu Hdo.
  destruct (Push_run c timeseries data env Hm Hu) as [-> _].
  now rewrite Hdo.
Qed.

End OnTheWire.

(** ** Composition *)

Section Composition.
Context `{pkgs : Packages}.

(** X16. Two tenant-scoping transports stacked on one another hand the
    transport below them one request whose [X-Scope-OrgID] is the tenant of
    the inner one (the nearer to the network), every other header entry
    being as in the original request; stacking the same tenant twice is the
    same as scoping once. *)
Theorem RoundTrip_nested (N : Type) `{RoundTripper N}
    (outer : addOrgIDRoundTripper (addOrgIDRoundTripper N)) (req : Request) :
  (exists req' : Request,
      RoundTrip outer req
      = RoundTrip (Transport.next (Transport.next outer)) req'
      /\ Header_Values (Header req') "X-Scope-OrgID"
         = [Transport.orgID (Transport.next outer)]
      /\ delete "X-Scope-Orgid" (Header req')
         = delete "X-Scope-Orgid" (Header req)
      /\ Method req' = Method req /\ URL req' = URL req
      /\ Body req' = Body req /\ ctx req' = ctx req)
  /\ (Transport.orgID outer = Transport.orgID (Transport.next outer) ->
      RoundTrip outer req = RoundTrip (Transport.next outer) req).
Proof.
  split.
  - eexists. split; [reflexivity|].
    cbn [Header Request_withHeader Method URL Body ctx].
    rewrite Header_Values_Set.
    rewrite <- canonical_tenant_key at 1 2.
    rewrite !Header_Set_frame. repeat split; reflexivity.
  - intros Heq.
    change (RoundTrip outer req)
      with (RoundTrip (Transport.next outer)
              (Request_withHeader req
                 (Header_Set (Header req) "X-Scope-OrgID"
                    (Transport.orgID outer)))).
    change (RoundTrip (Transport.next outer) ?r)
      with (RoundTrip (Transport.next (Transport.next outer))
              (Request_withHeader r
                 (Header_Set (Header r) "X-Scope-OrgID"
                    (Transport.orgID (Transport.next outer))))).
    f_equal. unfold Request_withHeader. cbn [Header Method URL Body ctx].
    f_equal. rewrite Heq. unfold Header_Set. apply insert_insert_eq.
Qed.

(** X17. The rule paths tell names apart: two [SetRuleGroup] requests of a
    client have the same URL only for the same namespace, two
    [DeleteRuleGroup] requests only for the same namespace and the same
    group name, and a [SetRuleGroup] request never has the URL of a
    [DeleteRuleGroup] request. *)
Theorem rule_paths_distinct (c : Client) (rulegroup rulegroup' : rulefmt_RuleGroup)
    (namespace namespace' groupName groupName' : string) (env env' : Env)
    (req req' : Request) :
  URL req = URL req' ->
  (trace env (SetRuleGroup c rulegroup namespace) = [NetRoundTrip req] ->
   trace env' (SetRuleGroup c rulegroup' namespace') = [NetRoundTrip req'] ->
   namespace = namespace')
  /\ (trace env (DeleteRuleGroup c namespace groupName) = [NetRoundTrip req] ->
      trace env' (DeleteRuleGroup c namespace' groupName')
      = [NetRoundTrip req'] ->
      namespace = namespace' /\ groupName = groupName')
  /\ (trace env (SetRuleGroup c rulegroup namespace) = [NetRoundTrip req] ->
      trace env' (DeleteRuleGroup c namespace' groupName')
      = [NetRoundTrip req'] ->
      False).
Proof.
  intros Hurl. split; [|split].
  - intros Htr Htr'.
    destruct (SetRuleGroup_first _ _ _ _ _ _ Htr) as [data ->].
    destruct (SetRuleGroup_first _ _ _ _ _ _ Htr') as [data' ->].
    cbn [URL setRuleGroupRequest] in Hurl.
    do 3 apply append_inj_l in Hurl. now apply PathEscape_inj.
  - intros Htr Htr'.
    rewrite (DeleteRuleGroup_first _ _ _ _ _ _ Htr) in Hurl.
    rewrite (DeleteRuleGroup_first _ _ _ _ _ _ Htr') in Hurl.
    cbn [URL deleteRuleGroupRequest] in Hurl.
    do 3 apply append_inj_l in Hurl.
    apply slash_split_unique in Hurl as [Hns Hg];
      [|apply PathEscape_segmentBytes..].
    split; now apply PathEscape_inj.
  - intros Htr Htr'.
    destruct (SetRuleGroup_first _ _ _ _ _ _ Htr) as [data ->].
    rewrite (DeleteRuleGroup_first _ _ _ _ _ _ Htr') in Hurl.
    cbn [URL setRuleGroupRequest deleteRuleGroupRequest] in Hurl.
    do 3 apply append_inj_l in Hurl.
    enough (true = false) by discriminate.
    rewrite <- (PathEscape_segmentBytes namespace), Hurl.
    exact (slash_not_segment _ _).
Qed.

End Composition.

(** ** Runs against the stand-in cluster *)

Section Runs.

#[local] Existing Instance Fake.packages.

Lemma NewClient_user1 :
  NewClient "distributor:80" "querier:80" "" "ruler:80" "user-1"
  = Ok Fake.user1.
Proof. reflexivity. Qed.

Lemma NewClient_user1AM :
  NewClient "distributor:80" "querier:80" "alertmanager:80" "ruler:80" "user-1"
  = Ok Fake.user1AM.
Proof. reflexivity. Qed.

(** A set and a delete, each answered with 500 and the body [boom]. *)
Lemma alertmanager_write_status_witness :
  run (Fake.cluster 500 "boom")
    (SetAlertmanagerConfig Fake.user1AM Background "route: x" ∅)
  = Returned (Some (fmt_Errorf
                      "setting config failed with status 500 and error boom"))
  /\ run (Fake.cluster 500 "boom")
       (DeleteAlertmanagerConfig Fake.user1AM Background)
     = Returned (Some (fmt_Errorf
                         "deleting config failed with status 500 and error boom")).
Proof.
  epose proof (alertmanager_write_status (pkgs := Fake.packages) Fake.user1AM
                 Fake.alertmanager Background "route: x" ∅ "route: x"
                 (Fake.cluster 500 "boom") _ _ eq_refl eq_refl)
    as [Hset Hdel].
  destruct (Hset eq_refl eq_refl) as (_ & _ & Hs).
  destruct (Hdel eq_refl) as (_ & _ & Hd).
  split; [apply Hs|apply Hd]; discriminate.
Defined.

(** C1 fails on the code: a set answered with 201 and a delete answered
    with 200 return an error when the body of the response breaks off. *)
Lemma alertmanager_write_truncated :
  (forall req : Request,
      exists b : ReadCloser,
        Fake.truncating 201 "" (NetRoundTrip req)
        = Ok {| StatusCode := 201; RespHeader := ∅; RespBody := b |})
  /\ run (Fake.truncating 201 "")
       (SetAlertmanagerConfig Fake.user1AM Background "route: x" ∅)
     = Returned (Some (foreign "unexpected EOF"))
  /\ (forall req : Request,
         exists b : ReadCloser,
           Fake.truncating 200 "" (NetRoundTrip req)
           = Ok {| StatusCode := 200; RespHeader := ∅; RespBody := b |})
  /\ run (Fake.truncating 200 "")
       (DeleteAlertmanagerConfig Fake.user1AM Background)
     = Returned (Some (foreign "unexpected EOF")).
Proof.
  repeat split; try reflexivity; intros req; eexists; reflexivity.
Qed.



(** The contexts of a push and of a delete of the alertmanager
    configuration under a cancellable caller context. *)
Lemma deadline_disciplines_witness :
  allUnder (WithTimeout Background (5 * Second))
    (trace (Fake.cluster 200 "") (Push Fake.user1AM ["up 1"]))
  /\ allUnder (WithCancel Background)
       (trace (Fake.cluster 200 "")
          (DeleteAlertmanagerConfig Fake.user1AM (WithCancel Background))).
Proof.
  pose proof (deadline_disciplines (pkgs := Fake.packages) "distributor:80" "querier:80"
                "alertmanager:80" "ruler:80" "user-1" Fake.user1AM
                (Fake.cluster 200 "") ["up 1"] "up" "job" Time_zero "groups"
                "test/ns" "g" (WithCancel Background) "route: x" ∅
                NewClient_user1AM) as (Hfixed & _ & Hcaller).
  split.
  - exact (proj1 Hfixed).
  - exact (proj2 (proj2 Hcaller)).
Defined.

(** C3 fails on the code: the instant query and the two label queries of a
    client built by [NewClient] hand the API client the background context,
    which carries no timeout and no deadline. *)
Lemma Query_without_deadline :
  NewClient "distributor:80" "querier:80" "" "ruler:80" "user-1"
  = Ok Fake.user1
  /\ map contextOf (trace (Fake.cluster 200 "")
                      (Query Fake.user1 "up" (Time_at 0)))
     = [Background]
  /\ map contextOf (trace (Fake.cluster 200 "") (LabelValues Fake.user1 "job"))
     = [Background]
  /\ map contextOf (trace (Fake.cluster 200 "") (LabelNames Fake.user1))
     = [Background]
  /\ timeouts Background = []
  /\ hasDeadline Background = false.
Proof. repeat split; reflexivity. Qed.


(** A get answered with 404. *)
Lemma GetAlertmanagerConfig_not_found_witness :
  run (Fake.cluster 404 "not found")
    (GetAlertmanagerConfig Fake.user1AM Background)
  = Returned (None, Some ErrNotFound).
Proof.
  epose proof (GetAlertmanagerConfig_not_found (pkgs := Fake.packages)
                 Fake.user1AM Fake.alertmanager Background
                 (Fake.cluster 404 "not found") _ _
                 eq_refl eq_refl eq_refl eq_refl) as [Hrun _].
  exact Hrun.
Defined.

(** C5 fails on the code: a get answered with 404 returns the read error,
    not the sentinel, when the body of the response breaks off. *)
Lemma GetAlertmanagerConfig_truncated_404 :
  (forall req : Request,
      exists b : ReadCloser,
        Fake.truncating 404 "" (NetRoundTrip req)
        = Ok {| StatusCode := 404; RespHeader := ∅; RespBody := b |})
  /\ run (Fake.truncating 404 "")
       (GetAlertmanagerConfig Fake.user1AM Background)
     = Returned (None, Some (foreign "unexpected EOF"))
  /\ foreign "unexpected EOF" <> ErrNotFound.
Proof.
  repeat split; try reflexivity; try discriminate.
  intros req; eexists; reflexivity.
Qed.

(** A push of two series. *)
Lemma Push_request_witness :
  exists (req : Request) (rest : list Event),
    trace (Fake.cluster 200 "") (Push Fake.user1 ["up 1"; "up 2"])
    = NetRoundTrip req :: rest
    /\ URL req = "http://distributor:80/api/prom/push"
    /\ Body req = Some "snappy:up 1,up 2"
    /\ Header_Get (Header req) "X-Scope-OrgID" = "user-1".
Proof.
  destruct (Push_request (pkgs := Fake.packages) Fake.user1 ["up 1"; "up 2"]
              "up 1,up 2" (Fake.cluster 200 "") eq_refl eq_refl)
    as (req & [rest Htr] & _ & Hurl & Hbody & _ & _ & _ & _ & Htenant & _).
  exists req, rest. repeat split; assumption.
Defined.


(** The client of [user-1] without an alertmanager. *)
Lemma no_alertmanager_panics_witness :
  exists c : Client,
    NewClient "distributor:80" "querier:80" "" "ruler:80" "user-1" = Ok c
    /\ GetAlertmanagerConfig c Background = Panic nilDereference.
Proof.
  destruct (no_alertmanager_panics (pkgs := Fake.packages) "distributor:80" "querier:80" "ruler:80"
              "user-1" eq_refl) as (c & Hnew & _ & Hops).
  exists c. split; [exact Hnew|].
  exact (proj1 (Hops Background "" ∅)).
Defined.


(** C9 fails on the code: the client built without an alertmanager address
    does not return an error from [GetAlertmanagerConfig],
    [SetAlertmanagerConfig] or [DeleteAlertmanagerConfig]; each run ends in
    a panic and returns nothing. *)
Lemma no_alertmanager_returns_nothing :
  NewClient "distributor:80" "querier:80" "" "ruler:80" "user-1"
  = Ok Fake.user1
  /\ run (Fake.cluster 200 "") (GetAlertmanagerConfig Fake.user1 Background)
     = Panicked nilDereference
  /\ run (Fake.cluster 200 "")
       (SetAlertmanagerConfig Fake.user1 Background "route: x" ∅)
     = Panicked nilDereference
  /\ run (Fake.cluster 200 "") (DeleteAlertmanagerConfig Fake.user1 Background)
     = Panicked nilDereference
  /\ (forall r : option alertConfig_Config * option error,
         run (Fake.cluster 200 "")
           (GetAlertmanagerConfig Fake.user1 Background)
         <> Returned r).
Proof. repeat split; try reflexivity. discriminate. Qed.

End Runs.

(** * Further runs *)

Section MoreRuns.

#[local] Existing Instance Fake.packages.

Lemma NewClient_misaddressed :
  NewClient "distributor:80" "querier:80" "" "ruler 80" "user-1"
  = Ok Fake.misaddressed.
Proof. reflexivity. Qed.

(** The client of [user-1] with an alertmanager. *)
Lemma NewClient_wiring_witness :
  orgID Fake.user1AM = "user-1" /\ timeout Fake.user1AM = 5000000000.
Proof.
  destruct (NewClient_wiring (pkgs := Fake.packages) "distributor:80"
              "querier:80" "alertmanager:80" "ruler:80" "user-1" Fake.user1AM
              eq_refl) as (_ & _ & _ & Ho & Ht & _).
  split; assumption.
Defined.

(** A delete of the alertmanager configuration, scoped by the transport. *)
Lemma every_exchange_tenant_scoped_witness :
  Forall (tenantScoped "user-1")
    (trace (Fake.cluster 200 "")
       (DeleteAlertmanagerConfig Fake.user1AM Background)).
Proof.
  pose proof (every_exchange_tenant_scoped (pkgs := Fake.packages)
                "distributor:80" "querier:80" "alertmanager:80" "ruler:80"
                "user-1" Fake.user1AM (Fake.cluster 200 "") ["up 1"] "up"
                "job" Time_zero "groups" "test/ns" "g" Background "route: x"
                ∅ eq_refl) as Hall.
  exact (proj2 (proj2 (proj2 (proj2 (proj2 (proj2 (proj2 (proj2 (proj2
           (proj2 Hall)))))))))).
Defined.

(** A push to a distributor that answers every request with a 307 to
    itself takes all ten round trips, and ends in an error. *)
Example Push_redirect_loop :
  length (trace (Fake.redirecting 307 "http://elsewhere/")
            (Push Fake.user1 ["up 1"])) = 10%nat
  /\ run (Fake.redirecting 307 "http://elsewhere/") (Push Fake.user1 ["up 1"])
     = Returned (None,
                 Some (url_Error "Post" "http://elsewhere/"
                         (foreign "stopped after 10 redirects"))).
Proof. split; reflexivity. Qed.

(** The rule groups of a ruler that cannot be reached. *)
Lemma transport_errors_surface_witness :
  run Fake.unreachable (GetRuleGroups Fake.user1)
  = Returned (None,
              Some (url_Error "Get" "http://ruler:80/api/prom/rules"
                      (foreign "connection refused"))).
Proof.
  epose proof (transport_errors_surface (pkgs := Fake.packages) Fake.user1
                 Fake.unreachable (foreign "connection refused") ["up 1"]
                 "up 1" "up" "groups" "test/ns" "g") as (_ & _ & Hget & _).
  exact (Hget eq_refl eq_refl).
Defined.

(** A push whose write request does not marshal. *)
Lemma marshal_failure_sends_nothing_witness :
  Push (pkgs := Fake.refusing) Fake.user1 ["up 1"]
  = Ret (None, Some (foreign "proto: required field not set")).
Proof.
  destruct (marshal_failure_sends_nothing (pkgs := Fake.refusing) Fake.user1
              Fake.alertmanager
              (foreign "proto: required field not set") ["up 1"] "groups"
              "test/ns" Background "route: x" ∅) as (Hpush & _).
  exact (Hpush eq_refl).
Defined.

(** The rule groups of a client whose ruler address holds a space. *)
Lemma bad_url_sends_nothing_witness :
  GetRuleGroups Fake.misaddressed
  = Ret (None, Some (foreign "invalid character in host name")).
Proof.
  destruct (bad_url_sends_nothing (pkgs := Fake.packages) Fake.misaddressed
              (foreign "invalid character in host name") ["up 1"] "up 1" "up"
              "groups" "test/ns" "g") as (_ & _ & Hget & _).
  exact (Hget eq_refl).
Defined.

(** A set answered with 201 whose body breaks off. *)
Lemma alertmanager_read_failure_witness :
  run (Fake.truncating 201 "")
    (SetAlertmanagerConfig Fake.user1AM Background "route: x" ∅)
  = Returned (Some (foreign "unexpected EOF")).
Proof.
  epose proof (alertmanager_read_failure (pkgs := Fake.packages) Fake.user1AM
                 Fake.alertmanager (Fake.truncating 201 "")
                 {| StatusCode := 201;
                    RespHeader := ∅;
                    RespBody := {| content := "";
                                   fault := Some (foreign "unexpected EOF");
                                   closed := false;
                                   noBody := false |} |}
                 (foreign "unexpected EOF") Background "route: x" ∅
                 "route: x" eq_refl eq_refl eq_refl) as (_ & Hset & _).
  exact (Hset eq_refl eq_refl eq_refl).
Defined.

(** A set with an alertmanager client returns. *)
Lemma alertmanager_outcomes_witness :
  exists r : option error,
    run (Fake.cluster 200 "null")
      (SetAlertmanagerConfig Fake.user1AM Background "route: x" ∅)
    = Returned r.
Proof.
  destruct (alertmanager_outcomes (pkgs := Fake.packages) Fake.user1AM
              Fake.alertmanager (Fake.cluster 200 "null") Background
              "route: x" ∅ eq_refl) as (Hset & _).
  exact Hset.
Defined.

(** A get answered with 200 and a JSON null is the one panic. *)
Example GetAlertmanagerConfig_null_panics :
  run (Fake.cluster 200 "null") (GetAlertmanagerConfig Fake.user1AM Background)
  = Panicked nilDereference.
Proof. reflexivity. Qed.

(** A delete answered directly with 404. *)
Lemma alertmanager_direct_answer_witness :
  length (trace (Fake.cluster 404 "none")
            (DeleteAlertmanagerConfig Fake.user1AM Background)) = 1%nat
  /\ run (Fake.cluster 404 "none")
       (DeleteAlertmanagerConfig Fake.user1AM Background)
     = Returned (Some ErrNotFound).
Proof.
  destruct (alertmanager_direct_answer (pkgs := Fake.packages) Fake.user1AM
              Fake.alertmanager Background "route: x" ∅ "route: x"
              (Fake.cluster 404 "none") (Fake.response 404 "none")
              eq_refl eq_refl) as (_ & Hdel).
  - cbn. intros [H|[H|[H|[H|[H|[]]]]]]; discriminate H.
  - reflexivity.
  - reflexivity.
  - destruct (Hdel eq_refl) as [Htr Hrun]. rewrite Htr, Hrun.
    split; reflexivity.
Defined.

(** A push answered with 503 and the body [busy]. *)
Lemma Push_response_witness :
  run (Fake.cluster 503 "busy") (Push Fake.user1 ["up 1"])
  = Returned (Some {| StatusCode := 503;
                      RespHeader := ∅;
                      RespBody := {| content := "busy"; fault := None;
                                     closed := true; noBody := false |} |},
              None).
Proof.
  exact (Push_response (pkgs := Fake.packages) Fake.user1 ["up 1"] "up 1"
           (Fake.cluster 503 "busy") (Fake.response 503 "busy")
           eq_refl eq_refl eq_refl).
Defined.


(** A raw query answered with 503 and the body [busy]. *)
Lemma QueryRaw_response_witness :
  run (Fake.cluster 503 "busy") (QueryRaw Fake.user1 "up")
  = Returned (Some {| StatusCode := 503;
                      RespHeader := ∅;
                      RespBody := {| content := ""; fault := None;
                                     closed := true; noBody := false |} |},
              "busy", None).
Proof.
  destruct (QueryRaw_response (pkgs := Fake.packages) Fake.user1 "up"
              (Fake.cluster 503 "busy") (Fake.response 503 "busy")
              eq_refl eq_refl eq_refl) as (Hok & _).
  exact (Hok eq_refl).
Defined.

(** A raw query that the querier moves with a 307 is sent again, and the
    answer of the second round trip is the one returned. *)
Example QueryRaw_follows_redirect :
  length (trace (Fake.moved "http://querier-2:80/q" 200 "ok")
            (QueryRaw Fake.user1 "up")) = 2%nat
  /\ run (Fake.moved "http://querier-2:80/q" 200 "ok")
       (QueryRaw Fake.user1 "up")
     = Returned (Some {| StatusCode := 200;
                         RespHeader := ∅;
                         RespBody := {| content := ""; fault := None;
                                        closed := true; noBody := false |} |},
                 "ok", None).
Proof. split; reflexivity. Qed.

(** A delete of the group [g 1] under [test/ns]. *)
Lemma rule_requests_witness :
  exists (req : Request) (rest : list Event),
    trace (Fake.cluster 202 "") (DeleteRuleGroup Fake.user1 "test/ns" "g 1")
    = NetRoundTrip req :: rest
    /\ Method req = "DELETE"
    /\ URL req = "http://ruler:80/api/prom/rules/test%2Fns/g%201"
    /\ Body req = None.
Proof.
  destruct (rule_requests (pkgs := Fake.packages) Fake.user1 "groups"
              "test/ns" "g 1" "groups" (Fake.cluster 202 "")
              eq_refl eq_refl eq_refl eq_refl) as (_ & _ & [rest Hdel]).
  eexists; exists rest. split; [exact Hdel|]. repeat split; reflexivity.
Defined.

(** The rule groups of a ruler that answers 500. *)
Lemma GetRuleGroups_response_witness :
  run (Fake.cluster 500 "boom") (GetRuleGroups Fake.user1)
  = Returned (Some ∅, None).
Proof.
  destruct (GetRuleGroups_response (pkgs := Fake.packages) Fake.user1
              (Fake.cluster 500 "boom") (Fake.response 500 "boom")
              eq_refl eq_refl eq_refl) as (_ & Hok & _).
  exact (Hok ∅ eq_refl eq_refl).
Defined.

(** A set of the alertmanager configuration of [user-1]. *)
Lemma alertmanager_requests_witness :
  exists (req : Request) (rest : list Event),
    trace (Fake.cluster 201 "")
      (SetAlertmanagerConfig Fake.user1AM (WithCancel Background)
         "route: x" ∅)
    = NetRoundTrip req :: rest
    /\ Method req = "POST"
    /\ URL req = "http://alertmanager:80/api/v1/alerts"
    /\ Body req = Some "route: x"
    /\ Header_Values (Header req) "X-Scope-OrgID" = ["user-1"].
Proof.
  destruct (alertmanager_requests (pkgs := Fake.packages) "distributor:80"
              "querier:80" "alertmanager:80" "ruler:80" "user-1" Fake.user1AM
              (Fake.cluster 201 "") (WithCancel Background) "route: x" ∅
              "route: x" eq_refl ltac:(discriminate) eq_refl eq_refl eq_refl)
    as (_ & [rest Hset] & _).
  eexists; exists rest. split; [exact Hset|]. repeat split; reflexivity.
Defined.

(** Two stores under the namespace [test/ns]. *)
Lemma rule_paths_distinct_witness : "test/ns" = "test/ns".
Proof.
  epose proof (rule_paths_distinct (pkgs := Fake.packages) Fake.user1
                 "groups" "other groups" "test/ns" "test/ns" "g" "g"
                 (Fake.cluster 202 "") (Fake.cluster 500 "") _ _ _)
    as (Hset & _).
  exact (Hset eq_refl eq_refl).
  Unshelve. reflexivity.
Defined.

(** Namespaces that differ in a slash only do not meet on the wire. *)
Example rule_paths_slash :
  URL.PathEscape "a/b" = "a%2Fb"
  /\ URL.PathEscape "a%2Fb" = "a%252Fb"
  /\ URL.PathUnescape "a%252Fb" = Some "a%2Fb".
Proof. repeat split; reflexivity. Qed.

End MoreRuns.
